(** * SmartBank: the transfer ledger and its fraud-decision pipeline

    A shallow embedding of [app/complete_main.py] (the [transfer] endpoint,
    [check_fraud], [create_audit_log]), [app/fraud_detection.py]
    ([FraudDetector], [check_fraud_ml]) and the tables of [app/models.py]
    that they touch.

    Balances and amounts are [Float] columns and Python [float]s.  The
    embedding is written once over an arithmetic interface [PyNum] and
    instantiated twice: with IEEE binary64 ([PrimFloat]), which is what the
    program computes with, and with the canonical rationals [Qc], the exact
    "decimal" arithmetic in which the conservation properties are phrased. *)

From Stdlib Require Import Floats.
From Stdlib Require Uint63.
From Stdlib Require Import ZArith List String Bool Lia Sorted Permutation.
From Stdlib Require Import QArith Qcanon.
Import ListNotations.

Set Warnings "-inexact-float".
Local Open Scope Z_scope.
Local Open Scope bool_scope.

(* ================================================================== *)
(** ** Numbers *)

(** The exceptions of the Python run time that the modelled code can meet. *)
Inductive PyExc : Type :=
| ZeroDivisionError
| NotFittedError.

(** The operations the program applies to balances, amounts and features. *)
Class PyNum (F : Type) : Type := {
  zero : F;                     (* the literal [0] *)
  lit_0_8 : F;                  (* the literal [0.8] *)
  of_int : Z -> F;              (* an [int] operand meeting a [float] *)
  py_add : F -> F -> F;         (* [a + b] *)
  py_sub : F -> F -> F;         (* [a - b] *)
  py_mul : F -> F -> F;         (* [a * b] *)
  py_quot : F -> F -> F;        (* [a / b] for a divisor that is not zero *)
  py_lt : F -> F -> bool;       (* [a < b] *)
  py_eq : F -> F -> bool        (* [a == b] *)
}.

(** [a > b] *)
Definition py_gt {F} `{PyNum F} (a b : F) : bool := py_lt b a.

(** [a / b]: Python raises [ZeroDivisionError] on a zero divisor. *)
Definition py_truediv {F} `{PyNum F} (a b : F) : PyExc + F :=
  if py_eq b zero then inl ZeroDivisionError else inr (py_quot a b).

(** *** IEEE binary64, the arithmetic of Python's [float] *)

Definition float_of_int (z : Z) : PrimFloat.float :=
  if z <? 0
  then PrimFloat.opp (PrimFloat.of_uint63 (Uint63.of_Z (- z)))
  else PrimFloat.of_uint63 (Uint63.of_Z z).

#[export] Instance float_num : PyNum PrimFloat.float := {|
  zero := 0%float;
  lit_0_8 := 0.8%float;
  of_int := float_of_int;
  py_add := PrimFloat.add;
  py_sub := PrimFloat.sub;
  py_mul := PrimFloat.mul;
  py_quot := PrimFloat.div;
  py_lt := PrimFloat.ltb;
  py_eq := PrimFloat.eqb
|}.

(** *** Exact rational arithmetic *)

Definition Qc_ltb (a b : Qc) : bool :=
  match (a ?= b)%Qc with Lt => true | _ => false end.

Definition Qc_eqb (a b : Qc) : bool :=
  match (a ?= b)%Qc with Eq => true | _ => false end.

#[export] Instance Qc_num : PyNum Qc := {|
  zero := Q2Qc 0%Q;
  lit_0_8 := Q2Qc (4 # 5)%Q;
  of_int := fun z => Q2Qc (inject_Z z);
  py_add := Qcplus;
  py_sub := Qcminus;
  py_mul := Qcmult;
  py_quot := Qcdiv;
  py_lt := Qc_ltb;
  py_eq := Qc_eqb
|}.

(** The laws of an exact arithmetic, as far as a transfer needs them.
    [Qc] has them; binary64 does not (see [float_not_exact] below). *)
Class ExactNum (F : Type) `{PyNum F} : Prop := {
  add_comm : forall a b : F, py_add a b = py_add b a;
  add_assoc : forall a b c : F, py_add a (py_add b c) = py_add (py_add a b) c;
  sub_add : forall a x : F, py_add (py_sub a x) x = a
}.

(** How debit and credit meet the sign test [b < 0]. *)
Class SignNum (F : Type) `{PyNum F} : Prop := {
  sub_not_neg : forall a x : F,
      py_lt a x = false -> py_lt (py_sub a x) zero = false;
  add_not_neg : forall b x : F,
      py_lt b zero = false -> py_lt zero x = true ->
      py_lt (py_add b x) zero = false
}.

(* ================================================================== *)
(** ** The tables of [app/models.py] *)

Inductive UserRole : Type := CUSTOMER | ADMIN | AUDITOR.
Inductive AccountType : Type := SAVINGS | CURRENT | FD.
Inductive TransactionType : Type := TRANSFER | DEPOSIT | WITHDRAWAL.

Record User : Type := {
  user_id : Z;
  role : UserRole
}.

(** [HTTPException(status_code, detail)] *)
Record HTTPException : Type := {
  status_code : Z;
  detail : string
}.

Section Ledger.

Context {F : Type} `{PyNum F}.

Record Account : Type := {
  acc_id : Z;
  account_number : string;
  acc_user_id : Z;
  account_type : AccountType;
  balance : F;
  is_active : bool;
  daily_limit : F
}.

(** The texts that end up in [Transaction.flag_reason].  A text with an
    interpolated number carries the number. *)
Inductive Reason : Type :=
| ExceedsDailyLimit (limit : F)  (* f"Exceeds daily limit of ₹{account.daily_limit}" *)
| MultipleLarge                  (* "Multiple large transactions in last hour" *)
| LargeWithdrawal                (* "Large withdrawal >80% of balance" *)
| NoReason                       (* the empty string *)
| MLExceedsLimit (score : F)     (* "ML detected anomaly: Amount exceeds daily limit (Score: ..)" *)
| MLLargeWithdrawal (score : F)  (* "ML detected anomaly: Large withdrawal detected (Score: ..)" *)
| MLUnusualPattern (score : F)   (* "ML detected anomaly: Unusual transaction pattern (Score: ..)" *)
| MLNormal (score : F)           (* "Transaction appears normal (Score: ..)" *)
| Approved.                      (* "Transaction approved" *)

Record Transaction : Type := {
  tx_id : Z;
  transaction_type : TransactionType;
  from_account_id : option Z;
  to_account_id : option Z;
  amount : F;
  balance_after : option F;
  description : option string;
  is_flagged : bool;
  flag_reason : option Reason;
  timestamp : Z                  (* microseconds since the epoch, UTC *)
}.

(** [AuditLog.details] of a transfer is
    f"₹{amount} from {from_account_number} to {to_account_number}". *)
Inductive Details : Type :=
| TransferDetails (amt : F) (from_number to_number : string).

Record AuditLog : Type := {
  log_id : Z;
  log_user_id : Z;
  action : string;
  details : option Details;
  log_timestamp : Z
}.

(** The three tables, rows in insertion order. *)
Record DB : Type := {
  accounts : list Account;
  transactions : list Transaction;
  audit_logs : list AuditLog
}.

(** A SQLAlchemy session: the rows as this session sees them (its identity
    map, pending changes included) and what it has committed so far, the
    newest commit first.  Other readers see the head of [commits]. *)
Record Session : Type := {
  pending : DB;
  commits : list DB
}.

(** [db.commit()] *)
Definition commit (s : Session) : Session :=
  {| pending := pending s; commits := pending s :: commits s |}.

(** The key an autoincrement primary key column gives the next row. *)
Definition next_id (ids : list Z) : Z := fold_right Z.max 0 ids + 1.

(** [query.first()] *)
Definition first {A} (rows : list A) : option A := hd_error rows.

(** An attribute write through an [Account] object.  The session's
    identity map hands out one object per primary key, so the write is seen
    through every reference to that row. *)
Definition set_balance (a : Account) (b : F) : Account :=
  {| acc_id := acc_id a; account_number := account_number a;
     acc_user_id := acc_user_id a; account_type := account_type a;
     balance := b; is_active := is_active a; daily_limit := daily_limit a |}.

Definition update_balance (i : Z) (f : F -> F) (d : DB) : DB :=
  {| accounts :=
       map (fun a => if acc_id a =? i then set_balance a (f (balance a)) else a)
           (accounts d);
     transactions := transactions d;
     audit_logs := audit_logs d |}.

(** An attribute read through an [Account] object. *)
Definition balance_of (i : Z) (d : DB) : option F :=
  option_map balance (find (fun a => acc_id a =? i) (accounts d)).

Definition add_transaction (t : Transaction) (d : DB) : DB :=
  {| accounts := accounts d;
     transactions := transactions d ++ [t];
     audit_logs := audit_logs d |}.

Definition add_audit_log (l : AuditLog) (d : DB) : DB :=
  {| accounts := accounts d;
     transactions := transactions d;
     audit_logs := audit_logs d ++ [l] |}.

Definition opt_Z_eqb (o : option Z) (i : Z) : bool :=
  match o with Some j => j =? i | None => false end.

(* ================================================================== *)
(** ** [app/complete_main.py] *)

Definition hour_us : Z := 3600 * 1000000.

(** The rows counted by rule 2. *)
Definition recent_large_rows (account : Account) (d : DB) (now : Z)
  : list Transaction :=
  let one_hour_ago := now - hour_us in
  filter (fun t => opt_Z_eqb (from_account_id t) (acc_id account)
                   && (one_hour_ago <=? timestamp t)
                   && py_gt (amount t) (of_int 10000))
         (transactions d).

(** [check_fraud(amount, account, db)]; [now] is what [datetime.utcnow()]
    returns inside it. *)
Definition check_fraud (amt : F) (account : Account) (d : DB) (now : Z)
  : bool * Reason :=
  if py_gt amt (daily_limit account) then
    (true, ExceedsDailyLimit (daily_limit account))
  else
    let recent_large := Z.of_nat (List.length (recent_large_rows account d now)) in
    if 3 <=? recent_large then
      (true, MultipleLarge)
    else if py_gt amt (py_mul (balance account) lit_0_8)
            && py_gt amt (of_int 50000) then
      (true, LargeWithdrawal)
    else
      (false, NoReason).

(** [create_audit_log(db, user_id, action, details)] *)
Definition create_audit_log (s : Session) (uid : Z) (act : string)
           (det : option Details) (now : Z) : Session :=
  let log := {| log_id := next_id (map log_id (audit_logs (pending s)));
                log_user_id := uid; action := act; details := det;
                log_timestamp := now |} in
  commit {| pending := add_audit_log log (pending s); commits := commits s |}.

Record TransferRequest : Type := {
  from_account_number : string;
  to_account_number : string;
  req_amount : F;
  req_description : option string
}.

(** The readings of [datetime.utcnow()] during one request: in
    [check_fraud], as the default of [Transaction.timestamp], and as the
    default of [AuditLog.timestamp]. *)
Record Clock : Type := {
  t_fraud : Z;
  t_transaction : Z;
  t_audit : Z
}.

Definition source_error : HTTPException :=
  {| status_code := 404; detail := "Source account not found or inactive" |}.
Definition destination_error : HTTPException :=
  {| status_code := 404; detail := "Destination account not found or inactive" |}.
Definition funds_error : HTTPException :=
  {| status_code := 400; detail := "Insufficient funds" |}.
(** FastAPI's answer to a body that fails validation; its detail, a list
    of findings, is summarised. *)
Definition validation_error : HTTPException :=
  {| status_code := 422; detail := "amount: greater than 0" |}.

Definition query_source (req : TransferRequest) (current_user : User) (d : DB)
  : option Account :=
  first (filter (fun a => String.eqb (account_number a) (from_account_number req)
                          && (acc_user_id a =? user_id current_user))
                (accounts d)).

Definition query_destination (req : TransferRequest) (d : DB) : option Account :=
  first (filter (fun a => String.eqb (account_number a) (to_account_number req))
                (accounts d)).

(** The body of the [transfer] endpoint, with the fraud check it calls as
    a parameter. *)
Definition transfer_with (fraud : F -> Account -> DB -> bool * Reason)
           (req : TransferRequest) (current_user : User) (clk : Clock)
           (s : Session) : (HTTPException + Transaction) * Session :=
  match query_source req current_user (pending s) with
  | None => (inl source_error, s)
  | Some from_acc =>
    if negb (is_active from_acc) then (inl source_error, s) else
    match query_destination req (pending s) with
    | None => (inl destination_error, s)
    | Some to_acc =>
      if negb (is_active to_acc) then (inl destination_error, s) else
      if py_lt (balance from_acc) (req_amount req) then (inl funds_error, s) else
      let '(is_fraud, reason) := fraud (req_amount req) from_acc (pending s) in
      let d1 := update_balance (acc_id from_acc)
                               (fun b => py_sub b (req_amount req)) (pending s) in
      let d2 := update_balance (acc_id to_acc)
                               (fun b => py_add b (req_amount req)) d1 in
      let transaction :=
        {| tx_id := next_id (map tx_id (transactions d2));
           transaction_type := TRANSFER;
           from_account_id := Some (acc_id from_acc);
           to_account_id := Some (acc_id to_acc);
           amount := req_amount req;
           balance_after := balance_of (acc_id from_acc) d2;
           description := req_description req;
           is_flagged := is_fraud;
           flag_reason := if is_fraud then Some reason else None;
           timestamp := t_transaction clk |} in
      let s1 := commit {| pending := add_transaction transaction d2;
                          commits := commits s |} in
      let s2 := create_audit_log s1 (user_id current_user) "TRANSFER"
                  (Some (TransferDetails (req_amount req)
                                         (from_account_number req)
                                         (to_account_number req)))
                  (t_audit clk) in
      (inr transaction, s2)
    end
  end.

(** [transfer(transfer, current_user, db)] as [complete_main.py] has it:
    the fraud check is [check_fraud]. *)
Definition transfer (req : TransferRequest) (current_user : User)
           (clk : Clock) (s : Session)
  : (HTTPException + Transaction) * Session :=
  transfer_with (fun amt acc d => check_fraud amt acc d (t_fraud clk))
                req current_user clk s.

(** The endpoint behind request validation: [TransferRequest.amount] is
    declared [Field(..., gt=0)], so the body only runs on a positive
    amount.  The validator belongs to the framework; it is followed here
    for amounts that compare with 0, and what it does with a NaN is
    outside this definition. *)
Definition transfer_endpoint (req : TransferRequest) (current_user : User)
           (clk : Clock) (s : Session)
  : (HTTPException + Transaction) * Session :=
  if py_gt (req_amount req) zero then transfer req current_user clk s
  else (inl validation_error, s).

End Ledger.

Arguments Account F : clear implicits.
Arguments Reason F : clear implicits.
Arguments Transaction F : clear implicits.
Arguments Details F : clear implicits.
Arguments AuditLog F : clear implicits.
Arguments DB F : clear implicits.
Arguments Session F : clear implicits.
Arguments TransferRequest F : clear implicits.

(* ================================================================== *)
(** ** [app/fraud_detection.py] *)

(** Sequencing of code that may raise. *)
Definition exc_bind {A B} (c : PyExc + A) (k : A -> PyExc + B) : PyExc + B :=
  match c with inl e => inl e | inr a => k a end.

Notation "x <- c ;; k" := (exc_bind c (fun x => k))
  (at level 61, c at next level, right associativity).

Fixpoint exc_map {A B} (f : A -> PyExc + B) (l : list A) : PyExc + list B :=
  match l with
  | [] => inr []
  | a :: l' => b <- f a ;; bs <- exc_map f l' ;; inr (b :: bs)
  end.

Definition day_us : Z := 24 * hour_us.

(** [timestamp.hour] and [timestamp.weekday()] (Monday is 0; the epoch
    fell on a Thursday). *)
Definition hour_of (ts : Z) : Z := (ts / hour_us) mod 24.
Definition weekday_of (ts : Z) : Z := (ts / day_us + 3) mod 7.

Section FraudDetection.

Context {F : Type} `{PyNum F}.

(** scikit-learn's [IsolationForest(contamination=0.05, random_state=42,
    n_estimators=100)], once fitted: what [fit] builds from the training
    matrix, and what [predict] and [score_samples] answer for one row. *)
Variable IsolationForest : Type.
Variable fit : list (list F) -> IsolationForest.
Variable model_predict : IsolationForest -> list F -> Z.
Variable score_samples : IsolationForest -> list F -> F.

(** numpy's global generator; the bounds are the literals of the call. *)
Variable RandomState : Type.
Variable uniform : Q -> Q -> RandomState -> F * RandomState.
Variable randint : Z -> Z -> RandomState -> Z * RandomState.

(** A [FraudDetector].  [model] is [None] while the forest has not been
    fitted. *)
Record FraudDetector : Type := {
  model : option IsolationForest;
  is_trained : bool
}.

(** [FraudDetector()] *)
Definition new_detector : FraudDetector :=
  {| model := None; is_trained := false |}.

(** The module's mutable state: the global [fraud_detector] and numpy's
    generator. *)
Definition MLState : Type := (FraudDetector * RandomState)%type.

(** [amount / account.balance if account.balance > 0 else 0] *)
Definition balance_ratio (amt : F) (account : Account F) : PyExc + F :=
  if py_gt (balance account) zero then py_truediv amt (balance account)
  else inr (of_int 0).

(** [FraudDetector.extract_features]; the clock is read once. *)
Definition extract_features (amt : F) (account : Account F) (d : DB F)
           (now : Z) : PyExc + list F :=
  let one_month_ago := now - 30 * day_us in
  let recent_transactions :=
    filter (fun t => opt_Z_eqb (from_account_id t) (acc_id account)
                     && (one_month_ago <=? timestamp t))
           (transactions d) in
  let feature_amount := amt in
  feature_balance_ratio <- balance_ratio amt account ;;
  avg_amount <-
    match recent_transactions with
    | [] => inr (of_int 0)
    | _ => py_truediv
             (fold_left py_add (map amount recent_transactions) (of_int 0))
             (of_int (Z.of_nat (List.length recent_transactions)))
    end ;;
  let feature_avg_diff := py_sub amt avg_amount in
  let one_hour_ago := now - hour_us in
  let recent_hour_count :=
    List.length
      (filter (fun t => opt_Z_eqb (from_account_id t) (acc_id account)
                        && (one_hour_ago <=? timestamp t))
              (transactions d)) in
  let feature_frequency := of_int (Z.of_nat recent_hour_count) in
  let feature_time := of_int (hour_of now) in
  let feature_day := of_int (weekday_of now) in
  feature_limit_ratio <- py_truediv amt (daily_limit account) ;;
  inr [feature_amount; feature_balance_ratio; feature_avg_diff;
       feature_frequency; feature_time; feature_day; feature_limit_ratio].

(** The rows one account contributes to the training matrix. *)
Definition account_transactions (account : Account F) (d : DB F)
  : list (Transaction F) :=
  firstn 100
    (filter (fun t => opt_Z_eqb (from_account_id t) (acc_id account))
            (transactions d)).

Definition training_row (account : Account F) (t : Transaction F)
  : PyExc + list F :=
  ratio <- balance_ratio (amount t) account ;;
  limit_ratio <- py_truediv (amount t) (daily_limit account) ;;
  inr [amount t; ratio; amount t; of_int 1;
       of_int (hour_of (timestamp t)); of_int (weekday_of (timestamp t));
       limit_ratio].

(** The loop of [train_on_historical_data] over all accounts. *)
Definition historical_data (d : DB F) : PyExc + list (list F) :=
  per_account <-
    exc_map (fun account =>
               exc_map (training_row account) (account_transactions account d))
            (accounts d) ;;
  inr (List.concat per_account).

(** One row of [_generate_synthetic_data]. *)
Definition synthetic_row (g : RandomState) : list F * RandomState :=
  let '(amt, g) := uniform (100 # 1) (10000 # 1) g in
  let '(ratio, g) := uniform (1 # 100) (3 # 10) g in
  let '(avg_diff, g) := uniform (- 1000 # 1) (1000 # 1) g in
  let '(frequency, g) := randint 0 3 g in
  let '(time, g) := randint 0 24 g in
  let '(day, g) := randint 0 7 g in
  let '(limit_ratio, g) := uniform (1 # 10) (1 # 2) g in
  ([amt; ratio; avg_diff; of_int frequency; of_int time; of_int day;
    limit_ratio], g).

Fixpoint synthetic_rows (n : nat) (g : RandomState)
  : list (list F) * RandomState :=
  match n with
  | O => ([], g)
  | S n' => let '(row, g) := synthetic_row g in
            let '(rows, g) := synthetic_rows n' g in
            (row :: rows, g)
  end.

(** [FraudDetector._generate_synthetic_data] *)
Definition _generate_synthetic_data (g : RandomState)
  : list (list F) * RandomState :=
  synthetic_rows 100 g.

(** [FraudDetector.train_on_historical_data] *)
Definition train_on_historical_data (d : DB F) (st : MLState)
  : (PyExc + unit) * MLState :=
  let '(self, g) := st in
  match accounts d with
  | [] => (inr tt, st)
  | _ =>
    match historical_data d with
    | inl e => (inl e, st)
    | inr training_data =>
      let '(training_data, g) :=
        if Z.of_nat (List.length training_data) <? 10
        then _generate_synthetic_data g
        else (training_data, g) in
      (inr tt, ({| model := Some (fit training_data); is_trained := true |}, g))
    end
  end.

(** [FraudDetector.predict] *)
Definition predict (amt : F) (account : Account F) (d : DB F) (now : Z)
           (st : MLState) : (PyExc + (bool * Reason F * F)) * MLState :=
  let '(trained, st) :=
    if negb (is_trained (fst st)) then train_on_historical_data d st
    else (inr tt, st) in
  match trained with
  | inl e => (inl e, st)
  | inr _ =>
    match extract_features amt account d now with
    | inl e => (inl e, st)
    | inr features =>
      match model (fst st) with
      | None => (inl NotFittedError, st)
      | Some forest =>
        let prediction := model_predict forest features in
        let anomaly_score := score_samples forest features in
        let is_fraud := prediction =? -1 in
        let reason :=
          if is_fraud then
            if py_gt amt (daily_limit account) then MLExceedsLimit anomaly_score
            else if py_gt amt (py_mul (balance account) lit_0_8)
                 then MLLargeWithdrawal anomaly_score
                 else MLUnusualPattern anomaly_score
          else MLNormal anomaly_score in
        (inr (is_fraud, reason, anomaly_score), st)
      end
    end
  end.

(** [check_fraud_ml] *)
Definition check_fraud_ml (amt : F) (account : Account F) (d : DB F)
           (now : Z) (st : MLState) : (bool * Reason F) * MLState :=
  if py_gt amt (daily_limit account) then
    ((true, ExceedsDailyLimit (daily_limit account)), st)
  else
    let recent_large := Z.of_nat (List.length (recent_large_rows account d now)) in
    if 3 <=? recent_large then
      ((true, MultipleLarge), st)
    else
      match predict amt account d now st with
      | (inr (true, reason, _), st') => ((true, reason), st')
      | (inr (false, _, _), st') => ((false, Approved), st')
      | (inl _, st') => ((false, Approved), st')
      end.

End FraudDetection.

Arguments FraudDetector : clear implicits.
Arguments new_detector {IsolationForest}.

(* ================================================================== *)
(** ** Vocabulary for the statements *)

Section Statements.

Context {F : Type} `{PyNum F}.

(** The primary key of [accounts]. *)
Definition unique_ids (d : DB F) : Prop := NoDup (map acc_id (accounts d)).

(** The [unique=True] of [Account.account_number]. *)
Definition unique_numbers (d : DB F) : Prop :=
  NoDup (map account_number (accounts d)).

(** The ledger after the debit and the credit. *)
Definition ledger_after (req : TransferRequest F) (from_acc to_acc : Account F)
           (d : DB F) : DB F :=
  update_balance (acc_id to_acc) (fun b => py_add b (req_amount req))
    (update_balance (acc_id from_acc) (fun b => py_sub b (req_amount req)) d).

(** The [Transaction] a transfer with verdict [v] writes. *)
Definition transfer_record (v : bool * Reason F) (req : TransferRequest F)
           (from_acc to_acc : Account F) (clk : Clock) (d : DB F)
  : Transaction F :=
  {| tx_id := next_id (map tx_id (transactions d));
     transaction_type := TRANSFER;
     from_account_id := Some (acc_id from_acc);
     to_account_id := Some (acc_id to_acc);
     amount := req_amount req;
     balance_after := balance_of (acc_id from_acc) (ledger_after req from_acc to_acc d);
     description := req_description req;
     is_flagged := fst v;
     flag_reason := if fst v then Some (snd v) else None;
     timestamp := t_transaction clk |}.

(** The [AuditLog] row of a transfer. *)
Definition transfer_audit (req : TransferRequest F) (u : User) (clk : Clock)
           (d : DB F) : AuditLog F :=
  {| log_id := next_id (map log_id (audit_logs d));
     log_user_id := user_id u;
     action := "TRANSFER";
     details := Some (TransferDetails (req_amount req)
                                      (from_account_number req)
                                      (to_account_number req));
     log_timestamp := t_audit clk |}.

(** What the first [db.commit()] of a transfer writes. *)
Definition first_commit (v : bool * Reason F) (req : TransferRequest F)
           (from_acc to_acc : Account F) (clk : Clock) (d : DB F) : DB F :=
  add_transaction (transfer_record v req from_acc to_acc clk d)
                  (ledger_after req from_acc to_acc d).

(** What the second one, inside [create_audit_log], writes. *)
Definition second_commit (v : bool * Reason F) (req : TransferRequest F)
           (u : User) (from_acc to_acc : Account F) (clk : Clock) (d : DB F)
  : DB F :=
  add_audit_log (transfer_audit req u clk d)
                (first_commit v req from_acc to_acc clk d).

(** The request passes account resolution and the funds check. *)
Definition accepted (req : TransferRequest F) (u : User) (d : DB F)
           (from_acc to_acc : Account F) : Prop :=
  query_source req u d = Some from_acc
  /\ is_active from_acc = true
  /\ query_destination req d = Some to_acc
  /\ is_active to_acc = true
  /\ py_lt (balance from_acc) (req_amount req) = false.

(** The count of rule 2, told row by row: transactions from this account,
    with an amount above 10000, stamped within the hour before [now]. *)
Fixpoint large_in_last_hour (account : Account F) (now : Z)
         (txs : list (Transaction F)) : Z :=
  match txs with
  | [] => 0
  | t :: rest =>
    (if opt_Z_eqb (from_account_id t) (acc_id account)
        && (now - hour_us <=? timestamp t)
        && py_gt (amount t) (of_int 10000)
     then 1 else 0) + large_in_last_hour account now rest
  end.

(** The three ways in which the source account of a request can fail to
    resolve. *)
Definition source_absent (req : TransferRequest F) (d : DB F) : Prop :=
  forall a, In a (accounts d) -> account_number a <> from_account_number req.

Definition source_not_owned (req : TransferRequest F) (u : User) (d : DB F)
  : Prop :=
  exists a, In a (accounts d)
            /\ account_number a = from_account_number req
            /\ acc_user_id a <> user_id u.

Definition source_inactive (req : TransferRequest F) (u : User) (d : DB F)
  : Prop :=
  exists a, In a (accounts d)
            /\ account_number a = from_account_number req
            /\ acc_user_id a = user_id u
            /\ is_active a = false.

End Statements.

(** *** The properties as the specification words them *)

(** The conservation property as the specification words it: after a
    successful transfer the two balances add up to what they added up to
    before. *)
Definition conservation (F : Type) `{PyNum F} : Prop :=
  forall req u clk (s s' : Session F) tx from_acc to_acc,
    unique_ids (pending s) ->
    transfer req u clk s = (inr tx, s') ->
    query_source req u (pending s) = Some from_acc ->
    query_destination req (pending s) = Some to_acc ->
    exists a' b',
      balance_of (acc_id from_acc) (pending s') = Some a'
      /\ balance_of (acc_id to_acc) (pending s') = Some b'
      /\ py_add a' b' = py_add (balance from_acc) (balance to_acc).

(** The self-transfer as it would read if debit and credit cancelled:
    accepted, recorded from the account to itself, balance as before. *)
Definition self_transfer_neutral (F : Type) `{PyNum F} : Prop :=
  forall req u clk (s : Session F) acc,
    unique_ids (pending s) -> unique_numbers (pending s) ->
    to_account_number req = from_account_number req ->
    query_source req u (pending s) = Some acc ->
    is_active acc = true ->
    py_lt (balance acc) (req_amount req) = false ->
    py_gt (req_amount req) zero = true ->
    exists tx s',
      transfer_endpoint req u clk s = (inr tx, s')
      /\ from_account_id tx = Some (acc_id acc)
      /\ to_account_id tx = Some (acc_id acc)
      /\ balance_of (acc_id acc) (pending s') = Some (balance acc).

(** The reading of the specification: three conditions, three errors. *)
Definition source_errors_distinct (F : Type) `{PyNum F} : Prop :=
  forall req_absent req_foreign req_inactive u clk (s : Session F) e1 e2 e3,
    unique_numbers (pending s) ->
    source_absent req_absent (pending s) ->
    source_not_owned req_foreign u (pending s) ->
    source_inactive req_inactive u (pending s) ->
    fst (transfer req_absent u clk s) = inl e1 ->
    fst (transfer req_foreign u clk s) = inl e2 ->
    fst (transfer req_inactive u clk s) = inl e3 ->
    e1 <> e2 /\ e2 <> e3 /\ e1 <> e3.

(** The reading of the specification: no committed state shows the
    transaction of a transfer without showing its audit row. *)
Definition one_unit_of_work (F : Type) `{PyNum F} : Prop :=
  forall req u clk (s s' : Session F) tx,
    transfer req u clk s = (inr tx, s') ->
    forall snapshot,
      In snapshot (commits s') ->
      In tx (transactions snapshot) ->
      In (transfer_audit req u clk (pending s)) (audit_logs snapshot).

Section ScorerStatement.

Context {F : Type} `{PyNum F}.

Variable IsolationForest RandomState : Type.
Variable fit : list (list F) -> IsolationForest.
Variable model_predict : IsolationForest -> list F -> Z.
Variable score_samples : IsolationForest -> list F -> F.
Variable uniform : Q -> Q -> RandomState -> F * RandomState.
Variable randint : Z -> Z -> RandomState -> Z * RandomState.

(** The reading of the specification: a fresh detector answers every call
    of [predict] with a verdict and a score. *)
Definition predict_always_scores (g : RandomState) : Prop :=
  forall amt account (d : DB F) now,
  exists verdict st',
    predict IsolationForest fit model_predict score_samples RandomState
            uniform randint amt account d now (new_detector, g) = (inr verdict, st').

End ScorerStatement.

(* ================================================================== *)
(** ** Concrete ledgers, in binary64 *)

Definition mk_account (i : Z) (number : string) (owner : Z)
           (bal limit : float) (active : bool) : Account float :=
  {| acc_id := i; account_number := number; acc_user_id := owner;
     account_type := SAVINGS; balance := bal; is_active := active;
     daily_limit := limit |}.

(** Account A of user 1 and account B of user 2, no history. *)
Definition two_accounts (a b limit : float) : DB float :=
  {| accounts := [mk_account 1 "4000000001" 1 a limit true;
                  mk_account 2 "4000000002" 2 b limit true];
     transactions := [];
     audit_logs := [] |}.

Definition open_session {F} (d : DB F) : Session F :=
  {| pending := d; commits := [d] |}.

Definition user1 : User := {| user_id := 1; role := CUSTOMER |}.

Definition send (src dst : string) (amt : float) : TransferRequest float :=
  {| from_account_number := src; to_account_number := dst;
     req_amount := amt; req_description := None |}.

(** 2026-01-05 12:00:00 UTC, a Monday, in microseconds. *)
Definition noon : Z := 1767614400 * 1000000.
Definition at_noon : Clock :=
  {| t_fraud := noon; t_transaction := noon + 1; t_audit := noon + 2 |}.

(** A transfer of 15000 from A to B, made so many minutes before noon. *)
Definition earlier_transfer (i : Z) (minutes_ago : Z) : Transaction float :=
  {| tx_id := i; transaction_type := TRANSFER;
     from_account_id := Some 1; to_account_id := Some 2;
     amount := 15000%float; balance_after := None; description := None;
     is_flagged := false; flag_reason := None;
     timestamp := noon - minutes_ago * 60000000 |}.

(** Four transfers of 15000 from A within the hour before noon. *)
Definition busy_hour : DB float :=
  {| accounts := accounts (two_accounts 140000 61000 100000);
     transactions := [earlier_transfer 1 50; earlier_transfer 2 40;
                      earlier_transfer 3 30; earlier_transfer 4 20];
     audit_logs := [] |}.

(** A of user 1 is deactivated, B belongs to user 2, C does not exist. *)
Definition one_closed : DB float :=
  {| accounts := [mk_account 1 "4000000001" 1 10000 100000 false;
                  mk_account 2 "4000000002" 2 1000 100000 true];
     transactions := [];
     audit_logs := [] |}.

(** A stand-in for scikit-learn and numpy, to run the scorer on concrete
    rows: the forest remembers how many rows it was fitted on and finds
    nothing anomalous; the generator returns the lower bound. *)
Definition toy_fit (X_train : list (list float)) : nat := List.length X_train.
Definition toy_predict (forest : nat) (row : list float) : Z := 1.
Definition toy_score (forest : nat) (row : list float) : float := (-0.4)%float.
Definition toy_uniform (lo hi : Q) (g : nat) : float * nat :=
  (PrimFloat.div (float_of_int (Qnum lo)) (float_of_int (Zpos (Qden lo))), S g).
Definition toy_randint (lo hi : Z) (g : nat) : Z * nat := (lo, S g).

(** B has a daily limit of 0 and one transfer in its history: building
    its training row divides by zero. *)
Definition zero_limit : DB float :=
  {| accounts := [mk_account 1 "4000000001" 1 10000 100000 true;
                  mk_account 2 "4000000002" 2 1000 0 true];
     transactions :=
       [{| tx_id := 1; transaction_type := TRANSFER;
           from_account_id := Some 2; to_account_id := Some 1;
           amount := 500%float; balance_after := Some 500%float;
           description := None; is_flagged := false; flag_reason := None;
           timestamp := noon - 60000000 |}];
     audit_logs := [] |}.

(* ================================================================== *)
(** ** Binary64 on its specification side *)

(** The sign test [f < 0] on the specification side of a binary64 value. *)
Definition is_neg (f : spec_float) : bool :=
  match f with
  | S754_infinity true | S754_finite true _ _ => true
  | _ => false
  end.

(** A mantissa brought to the common exponent of an addition. *)
Definition aligned (m : positive) (e ez : Z) : Z :=
  Zpos (fst (shl_align m e ez)).

(** The comparison of two magnitudes, as [SFcompare] performs it. *)
Definition mag_compare (m1 : positive) (e1 : Z) (m2 : positive) (e2 : Z)
  : comparison :=
  match e1 ?= e2 with
  | Lt => Lt
  | Gt => Gt
  | Eq => Pos.compare_cont Eq m1 m2
  end.

(* ================================================================== *)
(** ** The reading endpoints of [app/complete_main.py] *)

(** What the comparisons of one arithmetic have to do with each other. *)
Class OrderNum (F : Type) `{PyNum F} : Prop := {
  lt_asym : forall a b : F, py_lt a b = true -> py_lt b a = false;
  lt_not_eq : forall a b : F,
      py_lt a b = true -> py_eq a b = false /\ py_eq b a = false
}.

Definition admin_error : HTTPException :=
  {| status_code := 403; detail := "Admin access required" |}.
Definition account_error : HTTPException :=
  {| status_code := 404; detail := "Account not found" |}.

(** [get_current_admin(current_user)] *)
Definition get_current_admin (current_user : User) : HTTPException + User :=
  match role current_user with
  | ADMIN => inr current_user
  | _ => inl admin_error
  end.

Section Sorting.

Context {A : Type}.
Variable key : A -> Z.

(** [order_by(key.desc())]: the rows by falling key; rows with equal keys
    keep the order of the table. *)
Fixpoint insert_desc (x : A) (l : list A) : list A :=
  match l with
  | [] => [x]
  | y :: rest => if key y <=? key x then x :: y :: rest
                 else y :: insert_desc x rest
  end.

Definition order_by_desc (l : list A) : list A := fold_right insert_desc [] l.

End Sorting.

Section Reading.

Context {F : Type} `{PyNum F}.

(** [list_accounts(current_user, db)] *)
Definition list_accounts (current_user : User) (d : DB F) : list (Account F) :=
  filter (fun a => acc_user_id a =? user_id current_user) (accounts d).

(** The query of [get_account] and [transaction_history]: by account
    number and owner. *)
Definition query_own_account (number : string) (current_user : User)
           (d : DB F) : option (Account F) :=
  first (filter (fun a => String.eqb (account_number a) number
                          && (acc_user_id a =? user_id current_user))
                (accounts d)).

(** [get_account(account_number, current_user, db)] *)
Definition get_account (number : string) (current_user : User) (d : DB F)
  : HTTPException + Account F :=
  match query_own_account number current_user d with
  | None => inl account_error
  | Some account => inr account
  end.

(** [(Transaction.from_account_id == i) | (Transaction.to_account_id == i)] *)
Definition involves (i : Z) (t : Transaction F) : bool :=
  opt_Z_eqb (from_account_id t) i || opt_Z_eqb (to_account_id t) i.

(** [transaction_history(account_number, current_user, db)] *)
Definition transaction_history (number : string) (current_user : User)
           (d : DB F) : HTTPException + list (Transaction F) :=
  match query_own_account number current_user d with
  | None => inl account_error
  | Some account =>
    inr (firstn 50 (order_by_desc timestamp
                      (filter (involves (acc_id account)) (transactions d))))
  end.

(** [flagged_transactions(current_admin, db)], behind its dependency
    [get_current_admin]. *)
Definition flagged_transactions (current_user : User) (d : DB F)
  : HTTPException + list (Transaction F) :=
  match get_current_admin current_user with
  | inl e => inl e
  | inr _ => inr (order_by_desc timestamp (filter is_flagged (transactions d)))
  end.

(** The rows of one account that go into training, before the limit. *)
Definition outgoing (account : Account F) (d : DB F) : list (Transaction F) :=
  filter (fun t => opt_Z_eqb (from_account_id t) (acc_id account))
         (transactions d).

(** The two ways in which the destination of a request can fail to
    resolve. *)
Definition destination_absent (req : TransferRequest F) (d : DB F) : Prop :=
  forall a, In a (accounts d) -> account_number a <> to_account_number req.

Definition destination_inactive (req : TransferRequest F) (d : DB F) : Prop :=
  exists a, In a (accounts d)
            /\ account_number a = to_account_number req
            /\ is_active a = false.

(** Some account with a daily limit of zero has sent a transfer. *)
Definition zero_limit_sender (d : DB F) : Prop :=
  exists a, In a (accounts d)
            /\ py_eq (daily_limit a) zero = true
            /\ outgoing a d <> [].

(** The reasons [check_fraud_ml] can answer with. *)
Definition wrapper_reason (r : Reason F) : bool :=
  match r with
  | ExceedsDailyLimit _ | MultipleLarge | MLLargeWithdrawal _
  | MLUnusualPattern _ | Approved => true
  | _ => false
  end.

End Reading.

(** A transfer among the rows of [busy_hour], flagged, a quarter of an
    hour before noon. *)
Definition flagged_row : Transaction float :=
  {| tx_id := 5; transaction_type := TRANSFER;
     from_account_id := Some 2; to_account_id := Some 1;
     amount := 120000%float; balance_after := Some 1000%float;
     description := None; is_flagged := true;
     flag_reason := Some (ExceedsDailyLimit 100000%float);
     timestamp := noon - 15 * 60000000 |}.

Definition busy_hour_flagged : DB float :=
  {| accounts := accounts busy_hour;
     transactions := transactions busy_hour ++ [flagged_row];
     audit_logs := [] |}.

Definition admin1 : User := {| user_id := 9; role := ADMIN |}.
Definition user2 : User := {| user_id := 2; role := CUSTOMER |}.

(** The forest trained on the synthetic batch, as the stand-in builds
    it from generator state 0. *)
Definition toy_trained : MLState nat nat :=
  ({| model := Some 100%nat; is_trained := true |}, 700%nat).

(* ================================================================== *)
(** ** The two arithmetics compared *)

Lemma Qc_ltb_lt (a b : Qc) : Qc_ltb a b = true <-> (a < b)%Qc.
Proof.
  unfold Qc_ltb. rewrite Qclt_alt.
  destruct (a ?= b)%Qc; split; intro E; congruence.
Qed.

Lemma Qc_ltb_plus_r (a b c : Qc) : Qc_ltb (a + c) (b + c) = Qc_ltb a b.
Proof.
  assert (E : ((a + c < b + c) <-> (a < b))%Qc).
  { unfold Qclt, Qcplus, Q2Qc. cbn [this]. rewrite !Qred_correct.
    apply Qplus_lt_l. }
  destruct (Qc_ltb a b) eqn:Eab.
  - apply Qc_ltb_lt, E, Qc_ltb_lt, Eab.
  - destruct (Qc_ltb (a + c) (b + c)) eqn:Eac; [ | reflexivity ].
    apply Qc_ltb_lt, E, Qc_ltb_lt in Eac. congruence.
Qed.

#[export] Instance Qc_exact : ExactNum Qc.
Proof.
  constructor; simpl.
  - exact Qcplus_comm.
  - exact Qcplus_assoc.
  - intros a x. ring.
Qed.

#[export] Instance Qc_sign : SignNum Qc.
Proof.
  constructor; simpl.
  - intros a x Hax.
    rewrite <- (Qc_ltb_plus_r (a - x) 0 x).
    replace (a - x + x)%Qc with a by ring.
    now rewrite Qcplus_0_l.
  - intros b x Hb Hx.
    destruct (Qc_ltb (b + x) 0) eqn:E; [ exfalso | reflexivity ].
    apply Qc_ltb_lt in E, Hx.
    assert (Hlt : (b + x < 0 + x)%Qc).
    { rewrite Qcplus_0_l. now apply Qclt_trans with 0%Qc. }
    apply Qc_ltb_lt in Hlt. rewrite Qc_ltb_plus_r in Hlt. congruence.
Qed.

Example noon_is_monday_noon : weekday_of noon = 0 /\ hour_of noon = 12.
Proof. split; reflexivity. Qed.

(** Binary64 rounds: a debit followed by the matching credit need not
    give back the starting value. *)
Lemma float_not_exact : ~ ExactNum float.
Proof.
  intros E.
  pose proof (sub_add (F := float) 0.9%float 0.2%float) as Hround.
  apply (f_equal (fun x => PrimFloat.eqb x 0.9%float)) in Hround.
  vm_compute in Hround. discriminate.
Qed.

(** Two binary64 values that [==] tells apart are not equal. *)
Ltac float_neq E x :=
  apply (f_equal (fun z => PrimFloat.eqb z x)) in E;
  vm_compute in E; discriminate E.

(* ================================================================== *)
(** ** Binary64 and the sign of a balance *)

Lemma SFltb_zero f : SFltb f (S754_zero false) = is_neg f.
Proof. destruct f as [s | s | | s m e]; try destruct s; reflexivity. Qed.

Lemma binary_round_aux_sign mx ex lx :
  is_neg (binary_round_aux prec emax false mx ex lx) = false.
Proof.
  unfold binary_round_aux.
  destruct (shr_fexp prec emax mx ex lx) as [mrs' e'].
  destruct (shr_fexp prec emax _ e' loc_Exact) as [mrs'' e''].
  destruct (shr_m mrs'') as [ | m | m]; try reflexivity.
  destruct (Z.leb e'' _); reflexivity.
Qed.

Lemma binary_normalize_sign m e :
  0 <= m -> is_neg (binary_normalize prec emax m e false) = false.
Proof.
  destruct m as [ | m | m]; simpl; intros Hm.
  - reflexivity.
  - unfold binary_round. destruct (shl_align _ _ _).
    apply binary_round_aux_sign.
  - lia.
Qed.

Lemma digits2_bounds m :
  2 ^ (Zpos (digits2_pos m) - 1) <= Zpos m < 2 ^ Zpos (digits2_pos m).
Proof.
  induction m as [m IH | m IH | ]; cbn [digits2_pos];
    [ | | simpl; lia ];
    rewrite Pos2Z.inj_succ;
    replace (Z.succ (Z.pos (digits2_pos m)) - 1)
      with (Z.succ (Z.pos (digits2_pos m) - 1)) by lia;
    rewrite !Z.pow_succ_r by lia; lia.
Qed.

Lemma iter_xO m d : Zpos (Pos.iter xO m d) = Zpos m * 2 ^ Zpos d.
Proof.
  induction d as [ | d IH] using Pos.peano_ind.
  - simpl. lia.
  - rewrite Pos.iter_succ, Pos2Z.inj_xO, IH, Pos2Z.inj_succ, Z.pow_succ_r by lia.
    lia.
Qed.

Lemma aligned_pos m e ez : 0 < aligned m e ez.
Proof. apply Pos2Z.is_pos. Qed.

Lemma aligned_eq m e : aligned m e e = Zpos m.
Proof. unfold aligned, shl_align. now rewrite Z.sub_diag. Qed.

Lemma aligned_lt m e ez : ez < e -> aligned m e ez = Zpos m * 2 ^ (e - ez).
Proof.
  intros Hlt. unfold aligned, shl_align.
  destruct (ez - e) as [ | d | d] eqn:E; try lia. simpl.
  rewrite iter_xO. replace (e - ez) with (Zpos d) by lia. reflexivity.
Qed.

(** Canonical mantissas, aligned, compare as the magnitudes do: the one
    with the larger exponent has all its 53 bits. *)
Lemma mag_compare_aligned m1 e1 m2 e2 :
  bounded prec emax m1 e1 = true -> bounded prec emax m2 e2 = true ->
  mag_compare m1 e1 m2 e2 <> Lt ->
  aligned m2 e2 (Z.min e1 e2) <= aligned m1 e1 (Z.min e1 e2).
Proof.
  unfold bounded, canonical_mantissa, fexp, emin, prec, emax, mag_compare.
  intros B1 B2 Hc.
  apply andb_true_iff in B1, B2. destruct B1 as [C1 _], B2 as [C2 _].
  apply Z.eqb_eq in C1, C2.
  destruct (Z.compare_spec e1 e2) as [-> | Hlt | Hgt].
  - rewrite Z.min_id, !aligned_eq.
    change (Pos.compare_cont Eq m1 m2) with (Pos.compare m1 m2) in Hc.
    destruct (Pos.compare_spec m1 m2); try lia. congruence.
  - congruence.
  - rewrite Z.min_r by lia. rewrite aligned_eq, aligned_lt by lia.
    pose proof (digits2_bounds m1) as D1. pose proof (digits2_bounds m2) as D2.
    assert (Hd1 : Zpos (digits2_pos m1) = 53) by lia.
    assert (Hd2 : Zpos (digits2_pos m2) <= 53) by lia.
    rewrite Hd1 in D1.
    assert (Zpos m2 < 2 ^ 53).
    { apply Z.lt_le_trans with (2 ^ Zpos (digits2_pos m2)); [ lia | ].
      apply Z.pow_le_mono_r; lia. }
    assert (2 ^ 1 <= 2 ^ (e1 - e2)) by (apply Z.pow_le_mono_r; lia).
    change (2 ^ (53 - 1)) with 4503599627370496 in D1.
    change (2 ^ 53) with 9007199254740992 in *.
    change (2 ^ 1) with 2 in *. nia.
Qed.

Lemma mag_compare_antisym m1 e1 m2 e2 :
  mag_compare m2 e2 m1 e1 = CompOpp (mag_compare m1 e1 m2 e2).
Proof.
  unfold mag_compare. rewrite (Z.compare_antisym e1 e2).
  destruct (e1 ?= e2); simpl; try reflexivity.
  change (Pos.compare_cont Eq m2 m1) with (Pos.compare m2 m1).
  change (Pos.compare_cont Eq m1 m2) with (Pos.compare m1 m2).
  apply Pos.compare_antisym.
Qed.

Lemma SFcompare_finite sa ma ea sx mx ex :
  SFcompare (S754_finite sa ma ea) (S754_finite sx mx ex)
  = Some match sa, sx with
         | true, false => Lt
         | false, true => Gt
         | false, false => mag_compare ma ea mx ex
         | true, true => mag_compare mx ex ma ea
         end.
Proof.
  destruct sa, sx; try reflexivity.
  rewrite mag_compare_antisym. unfold mag_compare. simpl.
  now destruct (ea ?= ex).
Qed.

Lemma SFcompare_antisym a x :
  SFcompare x a = option_map CompOpp (SFcompare a x).
Proof.
  destruct a as [sa | sa | | sa ma ea], x as [sx | sx | | sx mx ex];
    try (destruct sa); try (destruct sx); try reflexivity;
    rewrite !SFcompare_finite; simpl; f_equal; apply mag_compare_antisym.
Qed.

Lemma SFsub_sign a x :
  valid_binary a = true -> valid_binary x = true ->
  SFltb a x = false -> is_neg (SF64sub a x) = false.
Proof.
  intros Va Vx.
  destruct a as [sa | sa | | sa ma ea], x as [sx | sx | | sx mx ex];
    try (destruct sa); try (destruct sx); try reflexivity; try discriminate;
    unfold SFltb; rewrite SFcompare_finite; intros Hlt;
    unfold SF64sub, SFsub; cbn [cond_Zopp];
    apply binary_normalize_sign; fold (aligned ma ea (Z.min ea ex));
    fold (aligned mx ex (Z.min ea ex)).
  all: try discriminate Hlt.
  all: pose proof (aligned_pos ma ea (Z.min ea ex)) as Pa.
  all: pose proof (aligned_pos mx ex (Z.min ea ex)) as Px.
  all: try lia.
  - assert (Hc : mag_compare mx ex ma ea <> Lt).
    { destruct (mag_compare mx ex ma ea); congruence. }
    pose proof (mag_compare_aligned mx ex ma ea Vx Va Hc) as Hle.
    rewrite Z.min_comm in Hle. lia.
  - assert (Hc : mag_compare ma ea mx ex <> Lt).
    { destruct (mag_compare ma ea mx ex); congruence. }
    pose proof (mag_compare_aligned ma ea mx ex Va Vx Hc) as Hle. lia.
Qed.

Lemma SFadd_sign b x :
  is_neg b = false -> SFltb (S754_zero false) x = true ->
  is_neg (SF64add b x) = false.
Proof.
  destruct b as [sb | sb | | sb mb eb], x as [sx | sx | | sx mx ex];
    try (destruct sb); try (destruct sx); try reflexivity; try discriminate.
  intros _ _. unfold SF64add, SFadd. cbn [cond_Zopp].
  apply binary_normalize_sign. fold (aligned mb eb (Z.min eb ex)).
  fold (aligned mx ex (Z.min eb ex)).
  pose proof (aligned_pos mb eb (Z.min eb ex)).
  pose proof (aligned_pos mx ex (Z.min eb ex)). lia.
Qed.

(** Debit and credit in binary64 respect the sign test, rounding, the
    infinities and NaN included. *)
#[export] Instance float_sign : SignNum float.
Proof.
  constructor; cbn [py_lt py_sub py_add zero float_num].
  - intros a x. rewrite !ltb_spec, sub_spec.
    change (Prim2SF 0) with (S754_zero false). rewrite SFltb_zero.
    apply SFsub_sign; apply Prim2SF_valid.
  - intros b x. rewrite !ltb_spec, add_spec.
    change (Prim2SF 0) with (S754_zero false). rewrite !SFltb_zero.
    apply SFadd_sign.
Qed.

(** [balance >= amount] passes the test [balance < amount]. *)
Lemma float_ge_not_lt (a x : float) :
  PrimFloat.leb x a = true -> PrimFloat.ltb a x = false.
Proof.
  rewrite leb_spec, ltb_spec. unfold SFleb, SFltb.
  rewrite (SFcompare_antisym (Prim2SF x) (Prim2SF a)).
  destruct (SFcompare (Prim2SF x) (Prim2SF a)) as [[ | | ] | ]; simpl; congruence.
Qed.

(* ================================================================== *)
(** ** Rows, references and the identity map *)

Section LedgerFacts.

Context {F : Type} `{PyNum F}.

Lemma first_filter {A} (p : A -> bool) (l : list A) (a : A) :
  first (filter p l) = Some a -> In a l /\ p a = true.
Proof.
  induction l as [ | b l IH]; simpl; [ discriminate | ].
  destruct (p b) eqn:Hb; simpl.
  - intros [= <-]. auto.
  - intros E. destruct (IH E). auto.
Qed.

Lemma query_source_row req u (d : DB F) a :
  query_source req u d = Some a ->
  In a (accounts d)
  /\ account_number a = from_account_number req
  /\ acc_user_id a = user_id u.
Proof.
  intros E. apply first_filter in E. destruct E as [Hin Hp].
  apply andb_true_iff in Hp. destruct Hp as [Hn Hu].
  apply String.eqb_eq in Hn. apply Z.eqb_eq in Hu. auto.
Qed.

Lemma query_destination_row req (d : DB F) a :
  query_destination req d = Some a ->
  In a (accounts d) /\ account_number a = to_account_number req.
Proof.
  intros E. apply first_filter in E. destruct E as [Hin Hp].
  apply String.eqb_eq in Hp. auto.
Qed.

(** Under the primary key, a reference reads the row it was obtained
    from. *)
Lemma find_by_id (l : list (Account F)) a :
  NoDup (map acc_id l) -> In a l ->
  find (fun r => acc_id r =? acc_id a) l = Some a.
Proof.
  induction l as [ | b l IH]; simpl; [ contradiction | ].
  intros Hnd [-> | Hin].
  - now rewrite Z.eqb_refl.
  - inversion Hnd as [ | ? ? Hnotin Hnd']; subst.
    destruct (acc_id b =? acc_id a) eqn:E; [ | auto ].
    apply Z.eqb_eq in E. exfalso. apply Hnotin. rewrite E.
    now apply in_map.
Qed.

Lemma balance_of_row (d : DB F) a :
  unique_ids d -> In a (accounts d) ->
  balance_of (acc_id a) d = Some (balance a).
Proof.
  intros Hnd Hin. unfold balance_of. now rewrite (find_by_id _ a Hnd Hin).
Qed.

Lemma same_id_same_row (d : DB F) a b :
  unique_ids d -> In a (accounts d) -> In b (accounts d) ->
  acc_id a = acc_id b -> a = b.
Proof.
  intros Hnd Ha Hb E.
  pose proof (find_by_id _ a Hnd Ha) as Fa.
  pose proof (find_by_id _ b Hnd Hb) as Fb.
  rewrite E in Fa. congruence.
Qed.

(** A write through one reference, read through any reference. *)
Lemma balance_of_update i j f (d : DB F) :
  balance_of j (update_balance i f d)
  = if j =? i then option_map f (balance_of j d) else balance_of j d.
Proof.
  unfold balance_of, update_balance. simpl.
  induction (accounts d) as [ | a l IH]; simpl.
  - now destruct (j =? i).
  - destruct (acc_id a =? i) eqn:Ei; simpl.
    + destruct (acc_id a =? j) eqn:Ej; simpl; [ | exact IH ].
      apply Z.eqb_eq in Ei, Ej.
      replace (j =? i) with true by (symmetry; apply Z.eqb_eq; lia).
      reflexivity.
    + destruct (acc_id a =? j) eqn:Ej; simpl; [ | exact IH ].
      apply Z.eqb_eq in Ej. subst j. now rewrite Ei.
Qed.

Lemma update_balance_ids i f (d : DB F) :
  map acc_id (accounts (update_balance i f d)) = map acc_id (accounts d).
Proof.
  unfold update_balance. simpl. rewrite map_map. apply map_ext.
  intros a. now destruct (acc_id a =? i).
Qed.

(** *** The successful path of [transfer], spelled out *)

Lemma transfer_with_accepted fraud req u clk (s : Session F) from_acc to_acc :
  accepted req u (pending s) from_acc to_acc ->
  let v := fraud (req_amount req) from_acc (pending s) in
  transfer_with fraud req u clk s
  = (inr (transfer_record v req from_acc to_acc clk (pending s)),
     {| pending := second_commit v req u from_acc to_acc clk (pending s);
        commits := second_commit v req u from_acc to_acc clk (pending s)
                   :: first_commit v req from_acc to_acc clk (pending s)
                   :: commits s |}).
Proof.
  intros (Hs & Has & Hd & Had & Hf). unfold transfer_with.
  rewrite Hs, Has, Hd, Had, Hf. simpl.
  destruct (fraud (req_amount req) from_acc (pending s)) as [is_fraud reason].
  reflexivity.
Qed.

Lemma transfer_with_inr fraud req u clk (s s' : Session F) tx :
  transfer_with fraud req u clk s = (inr tx, s') ->
  exists from_acc to_acc, accepted req u (pending s) from_acc to_acc.
Proof.
  unfold transfer_with, accepted. intros E.
  destruct (query_source req u (pending s)) as [from_acc | ]; [ | discriminate ].
  destruct (is_active from_acc) eqn:Has; simpl in E; [ | discriminate ].
  destruct (query_destination req (pending s)) as [to_acc | ]; [ | discriminate ].
  destruct (is_active to_acc) eqn:Had; simpl in E; [ | discriminate ].
  destruct (py_lt (balance from_acc) (req_amount req)) eqn:Hf; [ discriminate | ].
  exists from_acc, to_acc. auto.
Qed.

(** A rejected transfer leaves the session as it found it. *)
Lemma transfer_with_inl fraud req u clk (s s' : Session F) e :
  transfer_with fraud req u clk s = (inl e, s') -> s' = s.
Proof.
  unfold transfer_with. intros E.
  destruct (query_source req u (pending s)) as [from_acc | ]; [ | congruence ].
  destruct (is_active from_acc); simpl in E; [ | congruence ].
  destruct (query_destination req (pending s)) as [to_acc | ]; [ | congruence ].
  destruct (is_active to_acc); simpl in E; [ | congruence ].
  destruct (py_lt (balance from_acc) (req_amount req)); [ congruence | ].
  destruct (fraud (req_amount req) from_acc (pending s)). discriminate.
Qed.

(** The two balances after an accepted transfer. *)
Lemma ledger_after_balances req from_acc to_acc (d : DB F) :
  unique_ids d -> In from_acc (accounts d) -> In to_acc (accounts d) ->
  let x := req_amount req in
  let d' := ledger_after req from_acc to_acc d in
  (acc_id from_acc <> acc_id to_acc ->
   balance_of (acc_id from_acc) d' = Some (py_sub (balance from_acc) x)
   /\ balance_of (acc_id to_acc) d' = Some (py_add (balance to_acc) x))
  /\ (acc_id from_acc = acc_id to_acc ->
      balance_of (acc_id from_acc) d'
      = Some (py_add (py_sub (balance from_acc) x) x)).
Proof.
  intros Hnd Hf Ht x d'. unfold d', ledger_after. split.
  - intros Hne. rewrite !balance_of_update, !Z.eqb_refl.
    rewrite (balance_of_row d from_acc Hnd Hf), (balance_of_row d to_acc Hnd Ht).
    replace (acc_id from_acc =? acc_id to_acc) with false
      by (symmetry; apply Z.eqb_neq; exact Hne).
    replace (acc_id to_acc =? acc_id from_acc) with false
      by (symmetry; apply Z.eqb_neq; congruence).
    auto.
  - intros Heq.
    pose proof (same_id_same_row d from_acc to_acc Hnd Hf Ht Heq) as <-.
    rewrite !balance_of_update, !Z.eqb_refl.
    now rewrite (balance_of_row d from_acc Hnd Hf).
Qed.

End LedgerFacts.

(* ================================================================== *)
(** ** Conservation *)

Section Conservation.

Context {F : Type} `{PyNum F}.

Lemma exact_conservation `{!ExactNum F} (a b x : F) :
  py_add (py_sub a x) (py_add b x) = py_add a b.
Proof.
  rewrite (add_comm b x), add_assoc, sub_add. reflexivity.
Qed.

(** The two balances a successful transfer leaves behind. *)
Lemma transfer_new_balances req u clk (s s' : Session F) tx from_acc to_acc :
  unique_ids (pending s) ->
  transfer req u clk s = (inr tx, s') ->
  query_source req u (pending s) = Some from_acc ->
  query_destination req (pending s) = Some to_acc ->
  let a := balance from_acc in
  let b := balance to_acc in
  let x := req_amount req in
  (acc_id from_acc <> acc_id to_acc ->
   balance_of (acc_id from_acc) (pending s') = Some (py_sub a x)
   /\ balance_of (acc_id to_acc) (pending s') = Some (py_add b x))
  /\ (acc_id from_acc = acc_id to_acc ->
      from_acc = to_acc
      /\ balance_of (acc_id from_acc) (pending s') = Some (py_add (py_sub a x) x)).
Proof.
  intros Hnd Ht Hs Hd a b x.
  destruct (transfer_with_inr _ _ _ _ _ _ _ Ht) as (f & t & Hacc).
  pose proof Hacc as (Hs' & _ & Hd' & _ & _).
  assert (f = from_acc) by congruence. assert (t = to_acc) by congruence.
  subst f t.
  unfold transfer in Ht.
  rewrite (transfer_with_accepted _ _ _ _ _ _ _ Hacc) in Ht.
  injection Ht as _ <-.
  destruct (query_source_row _ _ _ _ Hs) as (Hinf & _).
  destruct (query_destination_row _ _ _ Hd) as (Hint & _).
  destruct (ledger_after_balances req from_acc to_acc (pending s) Hnd Hinf Hint)
    as [Hdiff Hsame].
  change (balance_of ?i (pending {| pending := second_commit ?v _ _ _ _ _ ?d;
                                    commits := _ |}))
    with (balance_of i (ledger_after req from_acc to_acc d)).
  split; [ exact Hdiff | ].
  intros Heq. split; [ | exact (Hsame Heq) ].
  exact (same_id_same_row _ _ _ Hnd Hinf Hint Heq).
Qed.

(** C1, as the code has it: a successful transfer leaves [a - x] in the
    source and [b + x] in the destination ([(a - x) + x] in both when they
    are one account), each computed in the arithmetic of the balance
    column; in an exact arithmetic the two new balances add up to the sum
    of the old ones. *)
Theorem transfer_conservation req u clk (s s' : Session F) tx from_acc to_acc :
  unique_ids (pending s) ->
  transfer req u clk s = (inr tx, s') ->
  query_source req u (pending s) = Some from_acc ->
  query_destination req (pending s) = Some to_acc ->
  let a := balance from_acc in
  let b := balance to_acc in
  let x := req_amount req in
  exists a' b',
    balance_of (acc_id from_acc) (pending s') = Some a'
    /\ balance_of (acc_id to_acc) (pending s') = Some b'
    /\ (acc_id from_acc <> acc_id to_acc ->
        a' = py_sub a x /\ b' = py_add b x)
    /\ (acc_id from_acc = acc_id to_acc ->
        a' = py_add (py_sub a x) x /\ b' = a')
    /\ (ExactNum F -> py_add a' b' = py_add a b).
Proof.
  intros Hnd Ht Hs Hd a b x.
  destruct (transfer_new_balances req u clk s s' tx from_acc to_acc Hnd Ht Hs Hd)
    as [Hdiff Hsame].
  destruct (Z.eq_dec (acc_id from_acc) (acc_id to_acc)) as [Heq | Hne].
  - destruct (Hsame Heq) as [Hrow Hbal].
    exists (py_add (py_sub a x) x), (py_add (py_sub a x) x).
    split; [ exact Hbal | ].
    split; [ rewrite <- Heq; exact Hbal | ].
    split; [ intros Hne; contradiction | ].
    split; [ auto | ].
    intros Hexact. rewrite !sub_add. unfold a, b. now rewrite Hrow.
  - destruct (Hdiff Hne) as [Ha Hb].
    exists (py_sub a x), (py_add b x).
    repeat split; auto; try contradiction.
    intros Hexact. apply exact_conservation.
Qed.

End Conservation.

(** In exact arithmetic the property holds as worded. *)
Corollary conservation_exact (F : Type) `{ExactNum F} : conservation F.
Proof.
  intros req u clk s s' tx from_acc to_acc Hnd Ht Hs Hd.
  destruct (transfer_new_balances req u clk s s' tx from_acc to_acc Hnd Ht Hs Hd)
    as [Hdiff Hsame].
  destruct (Z.eq_dec (acc_id from_acc) (acc_id to_acc)) as [Heq | Hne].
  - destruct (Hsame Heq) as [Hrow Hbal].
    exists (py_add (py_sub (balance from_acc) (req_amount req)) (req_amount req)),
           (py_add (py_sub (balance from_acc) (req_amount req)) (req_amount req)).
    split; [ exact Hbal | ]. split; [ rewrite <- Heq; exact Hbal | ].
    rewrite !sub_add. now rewrite Hrow.
  - destruct (Hdiff Hne) as [Ha Hb].
    exists (py_sub (balance from_acc) (req_amount req)),
           (py_add (balance to_acc) (req_amount req)).
    split; [ exact Ha | ]. split; [ exact Hb | ]. apply exact_conservation.
Qed.

(** A from 10000 to 8000, B from 1000 to 3000. *)
Lemma transfer_conservation_witness :
  exists a' b',
    balance_of 1 (pending (snd (transfer (send "4000000001" "4000000002" 2000)
                                         user1 at_noon
                                         (open_session (two_accounts 10000 1000 100000)))))
    = Some a'
    /\ balance_of 2 (pending (snd (transfer (send "4000000001" "4000000002" 2000)
                                            user1 at_noon
                                            (open_session (two_accounts 10000 1000 100000)))))
       = Some b'
    /\ a' = 8000%float /\ b' = 3000%float.
Proof.
  assert (Hnd : unique_ids (pending (open_session (two_accounts 10000 1000 100000)))).
  { repeat constructor; simpl; intuition discriminate. }
  eassert (Ht : transfer (send "4000000001" "4000000002" 2000) user1 at_noon
                         (open_session (two_accounts 10000 1000 100000))
                = (inr _, _)) by (lazy; reflexivity).
  destruct (transfer_conservation
              (send "4000000001" "4000000002" 2000) user1 at_noon
              (open_session (two_accounts 10000 1000 100000)) _ _
              (mk_account 1 "4000000001" 1 10000 100000 true)
              (mk_account 2 "4000000002" 2 1000 100000 true)
              Hnd Ht eq_refl eq_refl)
    as (a' & b' & Ha & Hb & Hdiff & _).
  exists a', b'. destruct Hdiff as [-> ->]; [ discriminate | ].
  repeat split; assumption.
Defined.

(** With balances 0.3 and 0.7 and an amount of 0.1, binary64 leaves
    0.19999999999999998 and 0.7999999999999999, which add up to
    0.9999999999999999 where the old balances added up to 1.0. *)
Lemma conservation_fails_in_binary64 : ~ conservation float.
Proof.
  intros Hc.
  assert (Hnd : unique_ids (pending (open_session (two_accounts 0.3 0.7 100000)))).
  { repeat constructor; simpl; intuition discriminate. }
  eassert (Ht : transfer (send "4000000001" "4000000002" 0.1) user1 at_noon
                         (open_session (two_accounts 0.3 0.7 100000))
                = (inr _, _)) by (lazy; reflexivity).
  destruct (Hc (send "4000000001" "4000000002" 0.1) user1 at_noon
               (open_session (two_accounts 0.3 0.7 100000)) _ _
               (mk_account 1 "4000000001" 1 0.3 100000 true)
               (mk_account 2 "4000000002" 2 0.7 100000 true)
               Hnd Ht eq_refl eq_refl)
    as (a' & b' & Ha & Hb & Hsum).
  vm_compute in Ha, Hb. injection Ha as <-. injection Hb as <-.
  float_neq Hsum 1%float.
Qed.

(* ================================================================== *)
(** ** The funds check *)

Section FundsCheck.

Context {F : Type} `{PyNum F}.

Lemma ledger_after_rows req from_acc to_acc (d : DB F) r :
  In r (accounts (ledger_after req from_acc to_acc d)) ->
  exists r0, In r0 (accounts d) /\ acc_id r = acc_id r0 /\
    balance r =
    let x := req_amount req in
    let b1 := if acc_id r0 =? acc_id from_acc
              then py_sub (balance r0) x else balance r0 in
    if acc_id r0 =? acc_id to_acc then py_add b1 x else b1.
Proof.
  unfold ledger_after, update_balance. simpl. rewrite map_map.
  intros Hin. apply in_map_iff in Hin. destruct Hin as (r0 & <- & Hin).
  exists r0. split; [ exact Hin | ].
  destruct (acc_id r0 =? acc_id from_acc); simpl;
    destruct (acc_id r0 =? acc_id to_acc); simpl; auto.
Qed.

(** Debit and credit keep every balance of the ledger from going below
    zero, the source's because the funds check has passed. *)
Lemma ledger_after_not_negative `{!SignNum F} req from_acc to_acc (d : DB F) :
  unique_ids d -> In from_acc (accounts d) ->
  py_lt (balance from_acc) (req_amount req) = false ->
  py_gt (req_amount req) zero = true ->
  (forall r, In r (accounts d) -> py_lt (balance r) zero = false) ->
  forall r, In r (accounts (ledger_after req from_acc to_acc d)) ->
            py_lt (balance r) zero = false.
Proof.
  intros Hnd Hinf Hfunds Hpos Hinv r Hr.
  destruct (ledger_after_rows _ _ _ _ _ Hr) as (r0 & Hin0 & _ & ->). simpl.
  destruct (acc_id r0 =? acc_id from_acc) eqn:Ef.
  - apply Z.eqb_eq in Ef.
    rewrite (same_id_same_row d r0 from_acc Hnd Hin0 Hinf Ef).
    pose proof (sub_not_neg _ _ Hfunds) as Hdebit.
    destruct (acc_id from_acc =? acc_id to_acc); [ | exact Hdebit ].
    now apply add_not_neg.
  - destruct (acc_id r0 =? acc_id to_acc); [ | now apply Hinv ].
    apply add_not_neg; [ now apply Hinv | exact Hpos ].
Qed.

(** Past the funds check, the transfer goes through. *)
Lemma funds_check_passes req u clk (s : Session F) from_acc to_acc :
  accepted req u (pending s) from_acc to_acc ->
  exists tx s', transfer req u clk s = (inr tx, s').
Proof.
  intros Hacc. unfold transfer.
  rewrite (transfer_with_accepted _ req u clk s from_acc to_acc Hacc). eauto.
Qed.

(** Whatever its outcome, a transfer of a positive amount keeps a ledger
    free of negative balances. *)
Lemma transfer_not_negative `{!SignNum F} req u clk (s : Session F) :
  unique_ids (pending s) ->
  py_gt (req_amount req) zero = true ->
  (forall r, In r (accounts (pending s)) -> py_lt (balance r) zero = false) ->
  forall r, In r (accounts (pending (snd (transfer req u clk s)))) ->
            py_lt (balance r) zero = false.
Proof.
  intros Hnd Hpos Hinv r.
  destruct (transfer req u clk s) as [[e | tx] s'] eqn:Ht; simpl.
  - rewrite (transfer_with_inl _ _ _ _ _ _ _ Ht). apply Hinv.
  - destruct (transfer_with_inr _ _ _ _ _ _ _ Ht) as (from_acc & to_acc & Hacc).
    unfold transfer in Ht.
    rewrite (transfer_with_accepted _ _ _ _ _ _ _ Hacc) in Ht.
    injection Ht as _ <-. simpl.
    destruct Hacc as (Hs & _ & _ & _ & Hfunds).
    apply (ledger_after_not_negative req from_acc to_acc (pending s)); auto.
    now destruct (query_source_row _ _ _ _ Hs).
Qed.

(** C2: once both accounts are resolved and active, the transfer fails with
    "Insufficient funds" and leaves the session untouched when the source
    balance is below the amount, goes through when it is not, and (where
    debit and credit respect the sign, as they do in binary64) no balance
    of a ledger without negative balances is negative afterwards. *)
Theorem insufficient_funds_guard req u clk (s : Session F) from_acc to_acc :
  query_source req u (pending s) = Some from_acc ->
  is_active from_acc = true ->
  query_destination req (pending s) = Some to_acc ->
  is_active to_acc = true ->
  (py_lt (balance from_acc) (req_amount req) = true ->
   transfer req u clk s = (inl funds_error, s))
  /\ (py_lt (balance from_acc) (req_amount req) = false ->
      exists tx s', transfer req u clk s = (inr tx, s'))
  /\ (SignNum F -> unique_ids (pending s) ->
      py_gt (req_amount req) zero = true ->
      (forall r, In r (accounts (pending s)) -> py_lt (balance r) zero = false) ->
      forall r, In r (accounts (pending (snd (transfer req u clk s)))) ->
                py_lt (balance r) zero = false).
Proof.
  intros Hs Has Hd Had. split; [ | split ].
  - intros Hlt. unfold transfer, transfer_with.
    now rewrite Hs, Has, Hd, Had, Hlt.
  - intros Hge. apply (funds_check_passes req u clk s from_acc to_acc).
    repeat split; auto.
  - intros Hsign. apply transfer_not_negative.
Qed.

End FundsCheck.

(** A holds 100 and sends 5000: "Insufficient funds", nothing changes. *)
Lemma insufficient_funds_guard_witness :
  transfer (send "4000000001" "4000000002" 5000) user1 at_noon
           (open_session (two_accounts 100 1000 100000))
  = (inl funds_error, open_session (two_accounts 100 1000 100000)).
Proof.
  apply (proj1 (insufficient_funds_guard
                  (send "4000000001" "4000000002" 5000) user1 at_noon
                  (open_session (two_accounts 100 1000 100000))
                  (mk_account 1 "4000000001" 1 100 100000 true)
                  (mk_account 2 "4000000002" 2 1000 100000 true)
                  eq_refl eq_refl eq_refl eq_refl)).
  reflexivity.
Defined.

(** In binary64: [balance >= amount] gets the transfer through, and a
    ledger without negative balances has none afterwards. *)
Corollary binary64_funds_check req u clk (s : Session float) from_acc to_acc :
  query_source req u (pending s) = Some from_acc ->
  is_active from_acc = true ->
  query_destination req (pending s) = Some to_acc ->
  is_active to_acc = true ->
  (PrimFloat.leb (req_amount req) (balance from_acc) = true ->
   exists tx s', transfer req u clk s = (inr tx, s'))
  /\ (unique_ids (pending s) ->
      PrimFloat.ltb 0 (req_amount req) = true ->
      (forall r, In r (accounts (pending s)) ->
                 PrimFloat.ltb (balance r) 0 = false) ->
      forall r, In r (accounts (pending (snd (transfer req u clk s)))) ->
                PrimFloat.ltb (balance r) 0 = false).
Proof.
  intros Hs Has Hd Had. split.
  - intros Hge. apply (funds_check_passes req u clk s from_acc to_acc).
    repeat split; auto. now apply float_ge_not_lt.
  - exact (transfer_not_negative req u clk s).
Qed.

(* ================================================================== *)
(** ** Flag and record *)

Section FlagAndRecord.

Context {F : Type} `{PyNum F}.

(** C3: a transfer that passes account resolution and the funds check is
    carried out whatever [check_fraud] answers: the ledger is debited and
    credited, the transaction and one audit row are appended and
    committed, and the verdict shows in [is_flagged] and [flag_reason] of
    the transaction and nowhere else. *)
Theorem flagged_transfer_completes req u clk (s : Session F) from_acc to_acc :
  accepted req u (pending s) from_acc to_acc ->
  let v := check_fraud (req_amount req) from_acc (pending s) (t_fraud clk) in
  exists tx s',
    transfer req u clk s = (inr tx, s')
    /\ is_flagged tx = fst v
    /\ flag_reason tx = (if fst v then Some (snd v) else None)
    /\ tx = transfer_record v req from_acc to_acc clk (pending s)
    /\ accounts (pending s') = accounts (ledger_after req from_acc to_acc (pending s))
    /\ transactions (pending s') = transactions (pending s) ++ [tx]
    /\ audit_logs (pending s')
       = audit_logs (pending s) ++ [transfer_audit req u clk (pending s)]
    /\ hd_error (commits s') = Some (pending s').
Proof.
  intros Hacc v. unfold transfer.
  rewrite (transfer_with_accepted _ req u clk s from_acc to_acc Hacc).
  fold v. eexists. eexists. split; [ reflexivity | ].
  simpl. repeat split; reflexivity.
Qed.

End FlagAndRecord.

(** Balance 200000, daily limit 100000, transfer of 150000: flagged for
    the daily limit, carried out, 50000 left. *)
Lemma flagged_transfer_completes_witness :
  exists tx s',
    transfer (send "4000000001" "4000000002" 150000) user1 at_noon
             (open_session (two_accounts 200000 1000 100000)) = (inr tx, s')
    /\ is_flagged tx = true
    /\ flag_reason tx = Some (ExceedsDailyLimit 100000%float)
    /\ balance_of 1 (pending s') = Some 50000%float
    /\ balance_of 2 (pending s') = Some 151000%float.
Proof.
  destruct (flagged_transfer_completes
              (send "4000000001" "4000000002" 150000) user1 at_noon
              (open_session (two_accounts 200000 1000 100000))
              (mk_account 1 "4000000001" 1 200000 100000 true)
              (mk_account 2 "4000000002" 2 1000 100000 true))
    as (tx & s' & Ht & Hflag & Hreason & _ & Hacc & _).
  - repeat split; reflexivity.
  - exists tx, s'. split; [ exact Ht | ].
    split; [ exact Hflag | ]. split; [ exact Hreason | ].
    unfold balance_of. rewrite Hacc. split; reflexivity.
Defined.

(* ================================================================== *)
(** ** A transfer from an account to itself *)

Section SelfTransfer.

Context {F : Type} `{PyNum F}.

Lemma query_by_number (l : list (Account F)) a :
  NoDup (map account_number l) -> In a l ->
  first (filter (fun r => String.eqb (account_number r) (account_number a)) l)
  = Some a.
Proof.
  induction l as [ | b l IH]; simpl; [ contradiction | ].
  intros Hnd [-> | Hin].
  - now rewrite String.eqb_refl.
  - inversion Hnd as [ | ? ? Hnotin Hnd']; subst.
    destruct (String.eqb (account_number b) (account_number a)) eqn:E; [ | auto ].
    apply String.eqb_eq in E. exfalso. apply Hnotin. rewrite E.
    now apply in_map.
Qed.

(** With equal account numbers both queries return the one row. *)
Lemma self_transfer_same_row req u (d : DB F) acc :
  unique_numbers d ->
  to_account_number req = from_account_number req ->
  query_source req u d = Some acc ->
  query_destination req d = Some acc.
Proof.
  intros Hnd Hsame Hs.
  destruct (query_source_row _ _ _ _ Hs) as (Hin & Hnum & _).
  unfold query_destination. rewrite Hsame, <- Hnum.
  now apply query_by_number.
Qed.

(** What a transfer from an account to itself does. *)
Lemma self_transfer_outcome req u clk (s : Session F) acc :
  unique_ids (pending s) -> unique_numbers (pending s) ->
  to_account_number req = from_account_number req ->
  query_source req u (pending s) = Some acc ->
  is_active acc = true ->
  py_lt (balance acc) (req_amount req) = false ->
  py_gt (req_amount req) zero = true ->
  let back := py_add (py_sub (balance acc) (req_amount req)) (req_amount req) in
  exists tx s',
    transfer_endpoint req u clk s = (inr tx, s')
    /\ from_account_id tx = Some (acc_id acc)
    /\ to_account_id tx = Some (acc_id acc)
    /\ In tx (transactions (pending s'))
    /\ balance_of (acc_id acc) (pending s') = Some back
    /\ balance_after tx = Some back.
Proof.
  intros Hnd Hnum Hsame Hs Hact Hfunds Hpos back.
  pose proof (self_transfer_same_row _ _ _ _ Hnum Hsame Hs) as Hd.
  destruct (query_source_row _ _ _ _ Hs) as (Hin & _).
  destruct (ledger_after_balances req acc acc (pending s) Hnd Hin Hin)
    as [_ Hback].
  specialize (Hback eq_refl).
  unfold transfer_endpoint, transfer. rewrite Hpos.
  rewrite (transfer_with_accepted _ req u clk s acc acc); [ | repeat split; auto ].
  eexists. eexists. split; [ reflexivity | ]. simpl.
  repeat split; auto.
  apply in_or_app. right. now left.
Qed.

(** C10, as the code has it: a transfer whose two account numbers are
    equal is accepted and recorded with the account on both sides; the
    balance it leaves, and records as [balance_after], is
    [(balance - amount) + amount], which is the old balance in an exact
    arithmetic. *)
Theorem self_transfer req u clk (s : Session F) acc :
  unique_ids (pending s) -> unique_numbers (pending s) ->
  to_account_number req = from_account_number req ->
  query_source req u (pending s) = Some acc ->
  is_active acc = true ->
  py_lt (balance acc) (req_amount req) = false ->
  py_gt (req_amount req) zero = true ->
  let back := py_add (py_sub (balance acc) (req_amount req)) (req_amount req) in
  exists tx s',
    transfer_endpoint req u clk s = (inr tx, s')
    /\ from_account_id tx = Some (acc_id acc)
    /\ to_account_id tx = Some (acc_id acc)
    /\ In tx (transactions (pending s'))
    /\ balance_of (acc_id acc) (pending s') = Some back
    /\ balance_after tx = Some back
    /\ (ExactNum F -> back = balance acc).
Proof.
  intros Hnd Hnum Hsame Hs Hact Hfunds Hpos back.
  destruct (self_transfer_outcome req u clk s acc Hnd Hnum Hsame Hs Hact Hfunds Hpos)
    as (tx & s' & Ht & Hf & Hto & Hin & Hbal & Hafter).
  exists tx, s'. repeat split; auto.
  intros Hexact. apply sub_add.
Qed.

End SelfTransfer.

(** In exact arithmetic the self-transfer is neutral. *)
Corollary self_transfer_neutral_exact (F : Type) `{ExactNum F} :
  self_transfer_neutral F.
Proof.
  intros req u clk s acc Hnd Hnum Hsame Hs Hact Hfunds Hpos.
  destruct (self_transfer_outcome req u clk s acc Hnd Hnum Hsame Hs Hact Hfunds Hpos)
    as (tx & s' & Ht & Hf & Hto & _ & Hbal & _).
  exists tx, s'. rewrite Hbal, sub_add. auto.
Qed.

(** 2000 sent from A (10000) to A: accepted, A still holds 10000. *)
Lemma self_transfer_witness :
  exists tx s',
    transfer_endpoint (send "4000000001" "4000000001" 2000) user1 at_noon
                      (open_session (two_accounts 10000 1000 100000))
    = (inr tx, s')
    /\ from_account_id tx = Some 1 /\ to_account_id tx = Some 1
    /\ balance_of 1 (pending s') = Some 10000%float
    /\ balance_after tx = Some 10000%float.
Proof.
  destruct (self_transfer
              (send "4000000001" "4000000001" 2000) user1 at_noon
              (open_session (two_accounts 10000 1000 100000))
              (mk_account 1 "4000000001" 1 10000 100000 true))
    as (tx & s' & Ht & Hf & Hto & _ & Hbal & Hafter & _).
  - repeat constructor; simpl; intuition discriminate.
  - repeat constructor; simpl; intuition discriminate.
  - reflexivity.
  - reflexivity.
  - reflexivity.
  - reflexivity.
  - reflexivity.
  - exists tx, s'. repeat split; assumption.
Defined.

(** 0.2 sent from A (0.9) to A: binary64 leaves 0.8999999999999999. *)
Lemma self_transfer_not_neutral_in_binary64 : ~ self_transfer_neutral float.
Proof.
  intros Hc.
  destruct (Hc (send "4000000001" "4000000001" 0.2) user1 at_noon
               (open_session (two_accounts 0.9 1000 100000))
               (mk_account 1 "4000000001" 1 0.9 100000 true))
    as (tx & s' & Ht & _ & _ & Hbal).
  - repeat constructor; simpl; intuition discriminate.
  - repeat constructor; simpl; intuition discriminate.
  - reflexivity.
  - reflexivity.
  - reflexivity.
  - reflexivity.
  - reflexivity.
  - vm_compute in Ht. injection Ht as _ <-.
    apply (f_equal (fun o => match o with
                             | Some z => PrimFloat.eqb z 0.9
                             | None => false
                             end)) in Hbal.
    vm_compute in Hbal. discriminate Hbal.
Qed.

(* ================================================================== *)
(** ** The deterministic rules *)

Section Rules.

Context {F : Type} `{PyNum F}.

Lemma recent_large_count account (d : DB F) now :
  Z.of_nat (List.length (recent_large_rows account d now))
  = large_in_last_hour account now (transactions d).
Proof.
  unfold recent_large_rows.
  induction (transactions d) as [ | t rest IH];
    cbn [filter large_in_last_hour]; [ reflexivity | ].
  destruct (opt_Z_eqb (from_account_id t) (acc_id account)
            && (now - hour_us <=? timestamp t)
            && py_gt (amount t) (of_int 10000));
    cbn [List.length]; rewrite ?Nat2Z.inj_succ; lia.
Qed.

Variable IsolationForest RandomState : Type.
Variable fit : list (list F) -> IsolationForest.
Variable model_predict : IsolationForest -> list F -> Z.
Variable score_samples : IsolationForest -> list F -> F.
Variable uniform : Q -> Q -> RandomState -> F * RandomState.
Variable randint : Z -> Z -> RandomState -> Z * RandomState.

(** C4: [check_fraud] tries (1) amount above the daily limit, (2) three or
    more large transactions of the account in the last hour, (3) amount
    above 0.8 of the balance and above 50000, in this order, and answers
    with the first that holds, or "not flagged" when none does;
    [check_fraud_ml] starts with the same (1) and (2), whatever the state
    of the model.  Both are functions of the amount, the account, the rows
    and the clock reading. *)
Theorem rules_in_order amt account (d : DB F) now :
  let rule1 := py_gt amt (daily_limit account) in
  let rule2 := 3 <=? large_in_last_hour account now (transactions d) in
  let rule3 := py_gt amt (py_mul (balance account) lit_0_8)
               && py_gt amt (of_int 50000) in
  check_fraud amt account d now
  = (if rule1 then (true, ExceedsDailyLimit (daily_limit account))
     else if rule2 then (true, MultipleLarge)
     else if rule3 then (true, LargeWithdrawal)
     else (false, NoReason))
  /\ (forall st : MLState IsolationForest RandomState,
        rule1 || rule2 = true ->
        check_fraud_ml IsolationForest fit model_predict score_samples
                       RandomState uniform randint amt account d now st
        = (check_fraud amt account d now, st)).
Proof.
  intros rule1 rule2 rule3. unfold check_fraud, check_fraud_ml.
  rewrite recent_large_count. fold rule1 rule2 rule3. split.
  - reflexivity.
  - intros st Hfired. destruct rule1; [ reflexivity | ].
    simpl in Hfired. now rewrite Hfired.
Qed.

End Rules.

(** After four transfers of 15000 within the hour, the fifth is flagged
    for "multiple large transactions". *)
Example fifth_large_transfer_flagged :
  check_fraud 15000%float (mk_account 1 "4000000001" 1 140000 100000 true)
              busy_hour noon
  = (true, MultipleLarge).
Proof. reflexivity. Qed.

Example large_withdrawal_flagged :
  check_fraud 60000%float (mk_account 1 "4000000001" 1 70000 100000 true)
              (two_accounts 70000 0 100000) noon
  = (true, LargeWithdrawal).
Proof. reflexivity. Qed.

Example small_transfer_clean :
  check_fraud 2000%float (mk_account 1 "4000000001" 1 10000 100000 true)
              (two_accounts 10000 1000 100000) noon
  = (false, NoReason).
Proof. reflexivity. Qed.

(* ================================================================== *)
(** ** Resolving the source account *)

Section SourceResolution.

Context {F : Type} `{PyNum F}.

Lemma first_filter_none {A} (p : A -> bool) (l : list A) :
  (forall a, In a l -> p a = false) -> first (filter p l) = None.
Proof.
  induction l as [ | b l IH]; simpl; intros Hall; [ reflexivity | ].
  rewrite (Hall b (or_introl eq_refl)). auto.
Qed.

Lemma same_number_same_row (d : DB F) a b :
  unique_numbers d -> In a (accounts d) -> In b (accounts d) ->
  account_number a = account_number b -> a = b.
Proof.
  intros Hnd Ha Hb E.
  pose proof (query_by_number _ a Hnd Ha) as Fa.
  pose proof (query_by_number _ b Hnd Hb) as Fb.
  rewrite E in Fa. congruence.
Qed.

(** C7, as the code has it: whether the account number does not exist,
    belongs to another user or names a deactivated account of the actor,
    the transfer ends in the one error 404 "Source account not found or
    inactive", and the session is as before. *)
Theorem source_resolution req u clk (s : Session F) :
  unique_numbers (pending s) ->
  source_absent req (pending s)
  \/ source_not_owned req u (pending s)
  \/ source_inactive req u (pending s) ->
  transfer req u clk s = (inl source_error, s).
Proof.
  intros Hnd Hcase. unfold transfer, transfer_with.
  destruct Hcase as [Habs | [(a & Hin & Hnum & Hown) | (a & Hin & Hnum & Hown & Hoff)]].
  - unfold query_source. rewrite first_filter_none; [ reflexivity | ].
    intros a Hin. apply andb_false_iff. left.
    apply String.eqb_neq. now apply Habs.
  - unfold query_source. rewrite first_filter_none; [ reflexivity | ].
    intros b Hinb.
    destruct (String.eqb (account_number b) (from_account_number req)) eqn:E;
      [ | reflexivity ].
    apply String.eqb_eq in E. simpl. apply Z.eqb_neq.
    assert (b = a) as -> by (apply (same_number_same_row (pending s)); congruence).
    exact Hown.
  - assert (Hq : query_source req u (pending s) = Some a).
    { destruct (query_source req u (pending s)) as [b | ] eqn:Eq.
      - destruct (query_source_row _ _ _ _ Eq) as (Hinb & Hnumb & _).
        f_equal. apply (same_number_same_row (pending s)); congruence.
      - exfalso. unfold query_source in Eq.
        assert (Hnone : forall l : list (Account F), In a l ->
          first (filter (fun r => String.eqb (account_number r) (from_account_number req)
                                  && (acc_user_id r =? user_id u)) l) <> None).
        { induction l as [ | b l IH]; simpl; [ contradiction | ].
          intros [-> | Hl].
          - rewrite Hnum, String.eqb_refl, Hown, Z.eqb_refl. discriminate.
          - destruct (String.eqb (account_number b) (from_account_number req)
                      && (acc_user_id b =? user_id u)); [ discriminate | auto ]. }
        exact (Hnone _ Hin Eq). }
    now rewrite Hq, Hoff.
Qed.

End SourceResolution.

(** User 1 names B, which belongs to user 2, as the source. *)
Lemma source_resolution_witness :
  transfer (send "4000000002" "4000000001" 500) user1 at_noon
           (open_session one_closed)
  = (inl source_error, open_session one_closed).
Proof.
  apply source_resolution.
  - repeat constructor; simpl; intuition discriminate.
  - right. left. exists (mk_account 2 "4000000002" 2 1000 100000 true).
    simpl. repeat split; auto. discriminate.
Defined.

(** The unknown number, the foreign account and the deactivated account
    all end in the same error. *)
Lemma source_errors_not_distinct : ~ source_errors_distinct float.
Proof.
  intros Hc.
  destruct (Hc (send "4000000003" "4000000002" 500)
               (send "4000000002" "4000000001" 500)
               (send "4000000001" "4000000002" 500)
               user1 at_noon (open_session one_closed)
               source_error source_error source_error) as (Hne & _).
  - repeat constructor; simpl; intuition discriminate.
  - intros a [<- | [<- | []]]; simpl; discriminate.
  - exists (mk_account 2 "4000000002" 2 1000 100000 true).
    simpl. repeat split; auto. discriminate.
  - exists (mk_account 1 "4000000001" 1 10000 100000 false).
    simpl. repeat split; auto.
  - reflexivity.
  - reflexivity.
  - reflexivity.
  - now apply Hne.
Qed.

(* ================================================================== *)
(** ** Units of work *)

Section UnitsOfWork.

Context {F : Type} `{PyNum F}.

(** C6, as the code has it: a rejected transfer commits nothing; a
    completed one commits twice.  The first commit carries the debit, the
    credit and the transaction, with the audit log as it was; the second,
    made by [create_audit_log], adds exactly one audit row and nothing
    else. *)
Theorem transfer_commits req u clk (s : Session F) :
  match transfer req u clk s with
  | (inl _, s') => s' = s
  | (inr tx, s') =>
    exists from_acc to_acc first_db,
      accepted req u (pending s) from_acc to_acc
      /\ commits s' = pending s' :: first_db :: commits s
      /\ accounts first_db = accounts (ledger_after req from_acc to_acc (pending s))
      /\ transactions first_db = transactions (pending s) ++ [tx]
      /\ audit_logs first_db = audit_logs (pending s)
      /\ accounts (pending s') = accounts first_db
      /\ transactions (pending s') = transactions first_db
      /\ audit_logs (pending s')
         = audit_logs first_db ++ [transfer_audit req u clk (pending s)]
  end.
Proof.
  destruct (transfer req u clk s) as [[e | tx] s'] eqn:Ht.
  - exact (transfer_with_inl _ _ _ _ _ _ _ Ht).
  - destruct (transfer_with_inr _ _ _ _ _ _ _ Ht) as (from_acc & to_acc & Hacc).
    unfold transfer in Ht.
    rewrite (transfer_with_accepted _ _ _ _ _ _ _ Hacc) in Ht.
    injection Ht as <- <-.
    exists from_acc, to_acc. eexists. split; [ exact Hacc | ].
    split; [ reflexivity | ]. simpl. repeat split; reflexivity.
Qed.

End UnitsOfWork.

(** After the first commit of A's transfer of 2000 to B, readers see the
    new balances and the transaction, and an empty audit log. *)
Lemma two_units_of_work : ~ one_unit_of_work float.
Proof.
  intros Hc.
  eassert (Ht : transfer (send "4000000001" "4000000002" 2000) user1 at_noon
                         (open_session (two_accounts 10000 1000 100000))
                = (inr _, _)) by (lazy; reflexivity).
  specialize (Hc _ _ _ _ _ _ Ht
                 (first_commit
                    (check_fraud 2000%float
                       (mk_account 1 "4000000001" 1 10000 100000 true)
                       (two_accounts 10000 1000 100000) noon)
                    (send "4000000001" "4000000002" 2000)
                    (mk_account 1 "4000000001" 1 10000 100000 true)
                    (mk_account 2 "4000000002" 2 1000 100000 true)
                    at_noon (two_accounts 10000 1000 100000))).
  simpl in Hc. apply Hc.
  - right. left. reflexivity.
  - left. reflexivity.
Qed.

(* ================================================================== *)
(** ** The anomaly scorer *)

Section Scorer.

Context {F : Type} `{PyNum F}.

Variable IsolationForest RandomState : Type.
Variable fit : list (list F) -> IsolationForest.
Variable model_predict : IsolationForest -> list F -> Z.
Variable score_samples : IsolationForest -> list F -> F.
Variable uniform : Q -> Q -> RandomState -> F * RandomState.
Variable randint : Z -> Z -> RandomState -> Z * RandomState.

Local Abbreviation predict' :=
  (predict IsolationForest fit model_predict score_samples
           RandomState uniform randint).
Local Abbreviation check_fraud_ml' :=
  (check_fraud_ml IsolationForest fit model_predict score_samples
                  RandomState uniform randint).
Local Abbreviation synthetic' := (_generate_synthetic_data RandomState uniform randint).


(** *** Lazy training *)

Lemma exc_map_length {A B} (f : A -> PyExc + B) (l : list A) (r : list B) :
  exc_map f l = inr r -> List.length r = List.length l.
Proof.
  revert r. induction l as [ | a l IH]; simpl; intros r E.
  - injection E as <-. reflexivity.
  - destruct (f a) as [ex | b]; simpl in E; [ discriminate | ].
    destruct (exc_map f l) as [ex | bs]; simpl in E; [ discriminate | ].
    injection E as <-. simpl. f_equal. now apply IH.
Qed.

Lemma account_transactions_bound account (d : DB F) :
  (List.length (account_transactions account d) <= 100)%nat.
Proof. unfold account_transactions. apply firstn_le_length. Qed.

Lemma historical_data_bound (d : DB F) rows :
  historical_data d = inr rows ->
  (List.length rows <= 100 * List.length (accounts d))%nat.
Proof.
  unfold historical_data.
  destruct (exc_map _ (accounts d)) as [ex | per_account] eqn:E; simpl;
    [ discriminate | ].
  intros [= <-]. revert per_account E.
  induction (accounts d) as [ | a l IH]; simpl; intros per_account E.
  - injection E as <-. simpl. lia.
  - destruct (exc_map (training_row a) (account_transactions a d))
      as [ex | rows_a] eqn:Ea; simpl in E; [ discriminate | ].
    destruct (exc_map _ l) as [ex | rest]; simpl in E; [ discriminate | ].
    injection E as <-. simpl. rewrite length_app.
    apply exc_map_length in Ea.
    pose proof (account_transactions_bound a d).
    specialize (IH rest eq_refl). lia.
Qed.

Lemma synthetic_rows_shape n g :
  let batch := fst (synthetic_rows RandomState uniform randint n g) in
  List.length batch = n
  /\ Forall (fun row => List.length row = 7%nat) batch.
Proof.
  revert g. induction n as [ | n IH]; intros g; simpl.
  - split; [ reflexivity | constructor ].
  - unfold synthetic_row.
    destruct (uniform (100 # 1) (10000 # 1) g) as [x1 g1].
    destruct (uniform (1 # 100) (3 # 10) g1) as [x2 g2].
    destruct (uniform (-1000 # 1) (1000 # 1) g2) as [x3 g3].
    destruct (randint 0 3 g3) as [x4 g4].
    destruct (randint 0 24 g4) as [x5 g5].
    destruct (randint 0 7 g5) as [x6 g6].
    destruct (uniform (1 # 10) (1 # 2) g6) as [x7 g7].
    specialize (IH g7). simpl in IH.
    destruct (synthetic_rows RandomState uniform randint n g7) as [rows g8].
    simpl in *. destruct IH as [Hlen Hall]. split.
    + now rewrite Hlen.
    + constructor; [ reflexivity | exact Hall ].
Qed.

(** C8, as the code has it: the first call of [predict] on a fresh
    detector.  With no row in [accounts] nothing is trained and the call
    raises: what [extract_features] raises if it does, [NotFittedError]
    from the unfitted forest otherwise.  With at least one account the
    forest is fitted on the rows of up to 100 transactions of each
    account, or on a batch of 100 synthetic rows of 7 features when fewer
    than 10 rows come together, and it is kept; the call then answers with
    the prediction and the score of that forest, unless
    [extract_features] raises.  When building the training rows raises,
    so does the call, and the detector stays as it was. *)
Theorem lazy_training amt account (d : DB F) now g :
  (accounts d = [] ->
   predict' amt account d now (new_detector, g)
   = (inl match extract_features amt account d now with
          | inl e => e
          | inr _ => NotFittedError
          end,
      (new_detector, g)))
  /\ (accounts d <> [] ->
      (forall e, historical_data d = inl e ->
                 predict' amt account d now (new_detector, g)
                 = (inl e, (new_detector, g)))
      /\ (forall rows, historical_data d = inr rows ->
          let few := Z.of_nat (List.length rows) <? 10 in
          let batch := if few then fst (synthetic' g) else rows in
          let g' := if few then snd (synthetic' g) else g in
          let forest := fit batch in
          (few = true ->
           List.length batch = 100%nat
           /\ Forall (fun row => List.length row = 7%nat) batch)
          /\ (List.length rows <= 100 * List.length (accounts d))%nat
          /\ (forall e, extract_features amt account d now = inl e ->
                        predict' amt account d now (new_detector, g)
                        = (inl e,
                           ({| model := Some forest; is_trained := true |}, g')))
          /\ (forall features,
                extract_features amt account d now = inr features ->
                exists is_fraud reason,
                  predict' amt account d now (new_detector, g)
                  = (inr (is_fraud, reason, score_samples forest features),
                     ({| model := Some forest; is_trained := true |}, g'))))).
Proof.
  split.
  - intros Hnone. unfold predict, train_on_historical_data. simpl.
    rewrite Hnone. simpl.
    destruct (extract_features amt account d now); reflexivity.
  - intros Hacc. split.
    + intros e He. unfold predict, train_on_historical_data. simpl.
      destruct (accounts d) as [ | a l]; [ contradiction | ].
      now rewrite He.
    + intros rows Hrows few batch g' forest.
      assert (Hb : (if few then synthetic' g else (rows, g)) = (batch, g')).
      { unfold batch, g'. destruct few; [ | reflexivity ].
        now destruct (synthetic' g). }
      split; [ | split; [ | split ] ].
      * intros Hfew. unfold batch. rewrite Hfew.
        apply (synthetic_rows_shape 100 g).
      * now apply historical_data_bound.
      * intros e He. unfold predict, train_on_historical_data. simpl.
        destruct (accounts d) as [ | a l] eqn:Ea; [ contradiction | ].
        rewrite Hrows. fold few. rewrite Hb. simpl. now rewrite He.
      * intros features Hfeat. unfold predict, train_on_historical_data. simpl.
        destruct (accounts d) as [ | a l] eqn:Ea; [ contradiction | ].
        rewrite Hrows. fold few. rewrite Hb. simpl. rewrite Hfeat.
        fold forest. eexists. eexists. reflexivity.
Qed.

End Scorer.


(** Two accounts without history: the forest is fitted on the synthetic
    batch of 100 rows and answers.  No account at all: [NotFittedError],
    and the detector is as before. *)
Lemma lazy_training_witness :
  (exists is_fraud reason score g',
      predict nat toy_fit toy_predict toy_score nat toy_uniform toy_randint
              2000%float (mk_account 1 "4000000001" 1 10000 100000 true)
              (two_accounts 10000 1000 100000) noon (new_detector, O)
      = (inr (is_fraud, reason, score),
         ({| model := Some 100%nat; is_trained := true |}, g')))
  /\ predict nat toy_fit toy_predict toy_score nat toy_uniform toy_randint
             2000%float (mk_account 1 "4000000001" 1 10000 100000 true)
             {| accounts := []; transactions := []; audit_logs := [] |}
             noon (new_detector, O)
     = (inl NotFittedError, (new_detector, O)).
Proof.
  split.
  - eassert (Hfeat : extract_features 2000%float
                       (mk_account 1 "4000000001" 1 10000 100000 true)
                       (two_accounts 10000 1000 100000) noon = inr _)
      by (lazy; reflexivity).
    destruct (lazy_training nat nat toy_fit toy_predict toy_score
                            toy_uniform toy_randint
                            2000%float
                            (mk_account 1 "4000000001" 1 10000 100000 true)
                            (two_accounts 10000 1000 100000) noon O)
      as [_ Htrained].
    destruct (Htrained ltac:(discriminate)) as [_ Hrows].
    destruct (Hrows [] eq_refl) as (_ & _ & _ & Hscore).
    destruct (Hscore _ Hfeat) as (is_fraud & reason & Hp).
    exists is_fraud, reason. eexists. eexists. exact Hp.
  - exact (proj1 (lazy_training nat nat toy_fit toy_predict toy_score
                                toy_uniform toy_randint
                                2000%float
                                (mk_account 1 "4000000001" 1 10000 100000 true)
                                {| accounts := []; transactions := [];
                                   audit_logs := [] |} noon O)
                 eq_refl).
Defined.

(** With no row in [accounts], training returns before fitting and the
    forest answers [NotFittedError], whatever scikit-learn would have
    built. *)
Lemma no_accounts_no_score :
  ~ exists (IsolationForest RandomState : Type) fit model_predict score_samples
           uniform randint (g : RandomState),
      @predict_always_scores float _ IsolationForest RandomState fit
                             model_predict score_samples uniform randint g.
Proof.
  intros (IsolationForest & RandomState & fit & model_predict & score_samples
          & uniform & randint & g & Hc).
  destruct (Hc 2000%float (mk_account 1 "4000000001" 1 10000 100000 true)
               {| accounts := []; transactions := []; audit_logs := [] |} noon)
    as (verdict & st' & Hp).
  discriminate Hp.
Qed.

(* ================================================================== *)
(** ** More on [transfer] *)

Section TransferMore.

Context {F : Type} `{PyNum F}.

(** X1: with the source resolved and active, a destination number that
    does not exist or names a deactivated account ends the transfer in
    404 "Destination account not found or inactive", whatever the balance
    and the amount, and the session is as before. *)
Theorem destination_resolution req u clk (s : Session F) from_acc :
  unique_numbers (pending s) ->
  query_source req u (pending s) = Some from_acc ->
  is_active from_acc = true ->
  destination_absent req (pending s) \/ destination_inactive req (pending s) ->
  transfer req u clk s = (inl destination_error, s).
Proof.
  intros Hnd Hs Has Hcase. unfold transfer, transfer_with.
  rewrite Hs, Has. simpl.
  destruct Hcase as [Habs | (a & Hin & Hnum & Hoff)].
  - unfold query_destination. rewrite first_filter_none; [ reflexivity | ].
    intros a Hin. apply String.eqb_neq. now apply Habs.
  - unfold query_destination. rewrite <- Hnum.
    rewrite (query_by_number _ a Hnd Hin). now rewrite Hoff.
Qed.

(** X2: when [transfer] raises an [HTTPException] it is one of the three
    it builds, the two 404s and the 400, and it raises it before it writes
    anything: the session, its pending rows and its commits, is as it
    was. *)
Theorem transfer_raises_before_writing req u clk (s s' : Session F) e :
  transfer req u clk s = (inl e, s') ->
  s' = s
  /\ (e = source_error \/ e = destination_error \/ e = funds_error).
Proof.
  unfold transfer, transfer_with.
  destruct (query_source req u (pending s)) as [from_acc | ];
    [ | intros [= <- <-]; auto ].
  destruct (is_active from_acc); simpl; [ | intros [= <- <-]; auto ].
  destruct (query_destination req (pending s)) as [to_acc | ];
    [ | intros [= <- <-]; auto ].
  destruct (is_active to_acc); simpl; [ | intros [= <- <-]; auto ].
  destruct (py_lt (balance from_acc) (req_amount req));
    [ intros [= <- <-]; auto | ].
  destruct (check_fraud _ _ _ _). discriminate.
Qed.

Lemma ledger_after_columns req from_acc to_acc (d : DB F) :
  let d' := ledger_after req from_acc to_acc d in
  map acc_id (accounts d') = map acc_id (accounts d)
  /\ map account_number (accounts d') = map account_number (accounts d)
  /\ map acc_user_id (accounts d') = map acc_user_id (accounts d)
  /\ map is_active (accounts d') = map is_active (accounts d)
  /\ map daily_limit (accounts d') = map daily_limit (accounts d).
Proof.
  unfold ledger_after, update_balance. simpl. rewrite !map_map.
  repeat split; apply map_ext; intros a;
    destruct (acc_id a =? acc_id from_acc); simpl;
    destruct (acc_id a =? acc_id to_acc); reflexivity.
Qed.

(** X3: a completed transfer writes two balances and nothing else in
    [accounts]: the keys, numbers, owners, active flags and daily limits of
    all rows stay, and so does the balance of every account that is
    neither source nor destination; the two uniqueness constraints
    survive. *)
Theorem transfer_frame req u clk (s s' : Session F) tx from_acc to_acc :
  transfer req u clk s = (inr tx, s') ->
  query_source req u (pending s) = Some from_acc ->
  query_destination req (pending s) = Some to_acc ->
  map acc_id (accounts (pending s')) = map acc_id (accounts (pending s))
  /\ map account_number (accounts (pending s'))
     = map account_number (accounts (pending s))
  /\ map acc_user_id (accounts (pending s'))
     = map acc_user_id (accounts (pending s))
  /\ map is_active (accounts (pending s')) = map is_active (accounts (pending s))
  /\ map daily_limit (accounts (pending s'))
     = map daily_limit (accounts (pending s))
  /\ (forall i, i <> acc_id from_acc -> i <> acc_id to_acc ->
                balance_of i (pending s') = balance_of i (pending s))
  /\ (unique_ids (pending s) -> unique_ids (pending s'))
  /\ (unique_numbers (pending s) -> unique_numbers (pending s')).
Proof.
  intros Ht Hs Hd.
  destruct (transfer_with_inr _ _ _ _ _ _ _ Ht) as (f & t & Hacc).
  pose proof Hacc as (Hs' & _ & Hd' & _ & _).
  assert (f = from_acc) by congruence. assert (t = to_acc) by congruence.
  subst f t. unfold transfer in Ht.
  rewrite (transfer_with_accepted _ _ _ _ _ _ _ Hacc) in Ht.
  injection Ht as _ <-.
  change (accounts (pending {| pending := second_commit ?v _ _ _ _ _ ?d;
                               commits := _ |}))
    with (accounts (ledger_after req from_acc to_acc d)).
  change (balance_of ?i (pending {| pending := second_commit ?v _ _ _ _ _ ?d;
                                    commits := _ |}))
    with (balance_of i (ledger_after req from_acc to_acc d)).
  destruct (ledger_after_columns req from_acc to_acc (pending s))
    as (Hid & Hnum & Hown & Hact & Hlim).
  repeat split; auto.
  - intros i Hf Hto. unfold ledger_after. rewrite !balance_of_update.
    replace (i =? acc_id to_acc) with false by (symmetry; now apply Z.eqb_neq).
    replace (i =? acc_id from_acc) with false by (symmetry; now apply Z.eqb_neq).
    reflexivity.
  - unfold unique_ids.
    change (accounts (pending {| pending := second_commit ?v _ _ _ _ _ ?d;
                                 commits := _ |}))
      with (accounts (ledger_after req from_acc to_acc d)).
    now rewrite Hid.
  - unfold unique_numbers.
    change (accounts (pending {| pending := second_commit ?v _ _ _ _ _ ?d;
                                 commits := _ |}))
      with (accounts (ledger_after req from_acc to_acc d)).
    now rewrite Hnum.
Qed.

(** X4: the transaction a transfer between two different accounts writes
    is a TRANSFER of the requested amount between the two keys; its
    [balance_after] is the balance the source account then shows,
    [balance - amount]; and it carries a reason exactly when it is
    flagged. *)
Theorem transfer_record_fields req u clk (s s' : Session F) tx from_acc to_acc :
  unique_ids (pending s) ->
  transfer req u clk s = (inr tx, s') ->
  query_source req u (pending s) = Some from_acc ->
  query_destination req (pending s) = Some to_acc ->
  acc_id from_acc <> acc_id to_acc ->
  transaction_type tx = TRANSFER
  /\ from_account_id tx = Some (acc_id from_acc)
  /\ to_account_id tx = Some (acc_id to_acc)
  /\ amount tx = req_amount req
  /\ balance_after tx = Some (py_sub (balance from_acc) (req_amount req))
  /\ balance_after tx = balance_of (acc_id from_acc) (pending s')
  /\ (is_flagged tx = true <-> flag_reason tx <> None).
Proof.
  intros Hnd Ht Hs Hd Hne.
  destruct (transfer_new_balances req u clk s s' tx from_acc to_acc Hnd Ht Hs Hd)
    as [Hdiff _].
  destruct (Hdiff Hne) as [Hbal _].
  destruct (transfer_with_inr _ _ _ _ _ _ _ Ht) as (f & t & Hacc).
  pose proof Hacc as (Hs' & _ & Hd' & _ & _).
  assert (f = from_acc) by congruence. assert (t = to_acc) by congruence.
  subst f t. unfold transfer in Ht.
  rewrite (transfer_with_accepted _ _ _ _ _ _ _ Hacc) in Ht.
  injection Ht as <- <-. rewrite Hbal. simpl.
  change (balance_of (acc_id from_acc) (second_commit ?v _ _ _ _ _ ?d))
    with (balance_of (acc_id from_acc) (ledger_after req from_acc to_acc d))
    in Hbal.
  repeat split; auto.
  - intros ->. discriminate.
  - destruct (fst (check_fraud _ _ _ _)); [ reflexivity | congruence ].
Qed.

Lemma large_in_last_hour_app account now (l1 l2 : list (Transaction F)) :
  large_in_last_hour account now (l1 ++ l2)
  = large_in_last_hour account now l1 + large_in_last_hour account now l2.
Proof.
  induction l1 as [ | t l1 IH]; cbn [app large_in_last_hour]; [ lia | ].
  rewrite IH. lia.
Qed.

(** X5: what a transfer records counts for rule 2 afterwards.  A completed
    transfer of more than 10000 raises by one the count of large recent
    transactions of its source account, for every clock reading up to an
    hour after its timestamp, and raises no other count. *)
Theorem transfer_feeds_rule_two req u clk (s s' : Session F) tx from_acc
        account now :
  transfer req u clk s = (inr tx, s') ->
  query_source req u (pending s) = Some from_acc ->
  large_in_last_hour account now (transactions (pending s'))
  = large_in_last_hour account now (transactions (pending s))
    + (if (acc_id from_acc =? acc_id account)
          && (now - hour_us <=? t_transaction clk)
          && py_gt (req_amount req) (of_int 10000)
       then 1 else 0).
Proof.
  intros Ht Hs.
  destruct (transfer_with_inr _ _ _ _ _ _ _ Ht) as (f & t & Hacc).
  pose proof Hacc as (Hs' & _).
  assert (f = from_acc) by congruence. subst f. unfold transfer in Ht.
  rewrite (transfer_with_accepted _ _ _ _ _ _ _ Hacc) in Ht.
  injection Ht as _ <-. simpl.
  rewrite large_in_last_hour_app. simpl. lia.
Qed.

End TransferMore.

(* ================================================================== *)
(** ** More on the fraud checks *)

#[export] Instance float_order : OrderNum float.
Proof.
  constructor; cbn [py_lt py_eq float_num]; intros a b;
    rewrite ?FloatAxioms.ltb_spec, ?FloatAxioms.eqb_spec; unfold SFltb, SFeqb;
    rewrite (SFcompare_antisym (Prim2SF a) (Prim2SF b));
    destruct (SFcompare (Prim2SF a) (Prim2SF b)) as [[ | | ] | ]; simpl;
    try split; congruence.
Qed.

#[export] Instance Qc_order : OrderNum Qc.
Proof.
  constructor; cbn [py_lt py_eq Qc_num]; unfold Qc_ltb, Qc_eqb, Qccompare;
    intros a b; rewrite <- (Qcompare_antisym a b);
    destruct (a ?= b)%Q; simpl; try split; congruence.
Qed.

Section FraudMore.

Context {F : Type} `{PyNum F}.

Variable IsolationForest RandomState : Type.
Variable fit : list (list F) -> IsolationForest.
Variable model_predict : IsolationForest -> list F -> Z.
Variable score_samples : IsolationForest -> list F -> F.
Variable uniform : Q -> Q -> RandomState -> F * RandomState.
Variable randint : Z -> Z -> RandomState -> Z * RandomState.

Local Abbreviation predict' :=
  (predict IsolationForest fit model_predict score_samples
           RandomState uniform randint).
Local Abbreviation check_fraud_ml' :=
  (check_fraud_ml IsolationForest fit model_predict score_samples
                  RandomState uniform randint).
Local Abbreviation train' :=
  (train_on_historical_data IsolationForest fit RandomState uniform randint).

(** X6: [check_fraud_ml] has no large-withdrawal rule.  A transfer above
    0.8 of the balance and above 50000 that the first two rules let pass
    is flagged by [check_fraud]; [check_fraud_ml] approves it whenever the
    forest finds it normal. *)
Theorem wrapper_drops_rule_three amt account (d : DB F) now
        (st st' : MLState IsolationForest RandomState) reason score :
  py_gt amt (daily_limit account) = false ->
  (3 <=? large_in_last_hour account now (transactions d)) = false ->
  py_gt amt (py_mul (balance account) lit_0_8) && py_gt amt (of_int 50000)
  = true ->
  predict' amt account d now st = (inr (false, reason, score), st') ->
  check_fraud amt account d now = (true, LargeWithdrawal)
  /\ check_fraud_ml' amt account d now st = ((false, Approved), st').
Proof.
  intros Hr1 Hr2 Hr3 Hp. unfold check_fraud, check_fraud_ml.
  rewrite Hr1, recent_large_count, Hr2, Hr3, Hp. auto.
Qed.

(** The reason [predict] gives for an anomaly. *)
Lemma predict_reason amt account (d : DB F) now
      (st st' : MLState IsolationForest RandomState) reason score :
  predict' amt account d now st = (inr (true, reason, score), st') ->
  reason = if py_gt amt (daily_limit account) then MLExceedsLimit score
           else if py_gt amt (py_mul (balance account) lit_0_8)
                then MLLargeWithdrawal score
                else MLUnusualPattern score.
Proof.
  unfold predict.
  destruct (if negb (is_trained _ (fst st)) then train' d st else (inr tt, st))
    as [[e | []] st1]; [ discriminate | ].
  destruct (extract_features amt account d now) as [e | features];
    [ discriminate | ].
  destruct (model _ (fst st1)) as [forest | ]; [ | discriminate ].
  destruct (model_predict forest features =? -1); intros [= <- <- <-];
    reflexivity.
Qed.

(** X7: what [check_fraud_ml] can answer.  Its reason is the daily limit,
    the multiple large transactions, one of the two anomaly texts "large
    withdrawal" and "unusual pattern", or "Transaction approved"; never
    the anomaly text about the daily limit, which rule 1 pre-empts, and
    never the text of [predict] for a normal transfer.  The verdict is
    "not flagged" exactly when the reason is "Transaction approved". *)
Theorem wrapper_answers amt account (d : DB F) now
        (st : MLState IsolationForest RandomState) :
  let verdict := fst (check_fraud_ml' amt account d now st) in
  wrapper_reason (snd verdict) = true
  /\ (fst verdict = false <-> snd verdict = Approved).
Proof.
  unfold check_fraud_ml.
  destruct (py_gt amt (daily_limit account)) eqn:Hr1; simpl.
  { split; [ reflexivity | split; discriminate ]. }
  destruct (3 <=? _); simpl.
  { split; [ reflexivity | split; discriminate ]. }
  destruct (predict' amt account d now st) as [[e | [[[ | ] reason] score]] st']
    eqn:Hp; simpl.
  - split; [ reflexivity | split; reflexivity ].
  - rewrite (predict_reason _ _ _ _ _ _ _ _ Hp), Hr1.
    destruct (py_gt amt (py_mul (balance account) lit_0_8));
      (split; [ reflexivity | split; discriminate ]).
  - split; [ reflexivity | split; reflexivity ].
Qed.

(** A training that finds no account, or whose rows raise, changes
    nothing. *)
Lemma train_keeps_state (d : DB F) (st : MLState IsolationForest RandomState) :
  accounts d = [] \/ (exists e, historical_data d = inl e) ->
  snd (train' d st) = st
  /\ (accounts d <> [] -> exists e, fst (train' d st) = inl e).
Proof.
  unfold train_on_historical_data. destruct st as [self g].
  intros [-> | (e & ->)].
  - split; [ reflexivity | congruence ].
  - destruct (accounts d); simpl; split; eauto. congruence.
Qed.

(** X8: [predict] trains at most once and keeps nothing of a training
    that did not happen.  A trained detector and the generator come out of
    every call as they went in, whatever rows the tables hold by then; so
    does an untrained one when the accounts table is empty or the training
    rows raise, and the call of a detector without a fitted forest then
    ends in an exception. *)
Theorem predict_trains_at_most_once amt account (d : DB F) now
        (st : MLState IsolationForest RandomState) :
  (is_trained _ (fst st) = true -> snd (predict' amt account d now st) = st)
  /\ (is_trained _ (fst st) = false ->
      accounts d = [] \/ (exists e, historical_data d = inl e) ->
      snd (predict' amt account d now st) = st
      /\ (model _ (fst st) = None ->
          exists e, fst (predict' amt account d now st) = inl e)).
Proof.
  unfold predict. split.
  - intros ->. simpl.
    destruct (extract_features amt account d now); [ reflexivity | ].
    destruct (model _ (fst st)); reflexivity.
  - intros -> Hcase. simpl.
    destruct (train_keeps_state d st Hcase) as [Hst _].
    destruct (train' d st) as [[e | []] st1]; simpl in Hst; subst st1; simpl.
    + split; eauto.
    + destruct (extract_features amt account d now); simpl;
        [ split; eauto | ].
      destruct (model _ (fst st)); simpl; split; eauto. discriminate.
Qed.

End FraudMore.

(* ================================================================== *)
(** ** More on the training rows *)

Section TrainingMore.

Context {F : Type} `{PyNum F}.

Variable IsolationForest RandomState : Type.
Variable fit : list (list F) -> IsolationForest.
Variable model_predict : IsolationForest -> list F -> Z.
Variable score_samples : IsolationForest -> list F -> F.
Variable uniform : Q -> Q -> RandomState -> F * RandomState.
Variable randint : Z -> Z -> RandomState -> Z * RandomState.

Local Abbreviation check_fraud_ml' :=
  (check_fraud_ml IsolationForest fit model_predict score_samples
                  RandomState uniform randint).

Lemma exc_map_Forall {A B} (f : A -> PyExc + B) (P : B -> Prop)
      (l : list A) (r : list B) :
  (forall a b, f a = inr b -> P b) ->
  exc_map f l = inr r -> Forall P r.
Proof.
  intros Hf. revert r. induction l as [ | a l IH]; simpl; intros r E.
  - injection E as <-. constructor.
  - destruct (f a) as [ex | b] eqn:Ea; simpl in E; [ discriminate | ].
    destruct (exc_map f l) as [ex | bs]; simpl in E; [ discriminate | ].
    injection E as <-. constructor; eauto.
Qed.

Lemma training_row_shape account (t : Transaction F) row :
  training_row account t = inr row -> List.length row = 7%nat.
Proof.
  unfold training_row.
  destruct (balance_ratio (amount t) account); simpl; [ discriminate | ].
  destruct (py_truediv (amount t) (daily_limit account)); simpl;
    [ discriminate | ].
  intros [= <-]. reflexivity.
Qed.

(** X9: when the training rows can be built, there is one row of 7
    features for every transfer sent by an account of the table, up to
    the first 100 of each account; transactions without a source account
    in the table contribute nothing. *)
Theorem historical_data_size (d : DB F) rows :
  historical_data d = inr rows ->
  List.length rows
  = list_sum (map (fun a => Nat.min 100 (List.length (outgoing a d)))
                  (accounts d))
  /\ Forall (fun row => List.length row = 7%nat) rows.
Proof.
  unfold historical_data.
  destruct (exc_map _ (accounts d)) as [ex | per_account] eqn:E; simpl;
    [ discriminate | ].
  intros [= <-]. revert per_account E.
  induction (accounts d) as [ | a l IH]; simpl; intros per_account E.
  - injection E as <-. split; [ reflexivity | constructor ].
  - destruct (exc_map (training_row a) (account_transactions a d))
      as [ex | rows_a] eqn:Ea; simpl in E; [ discriminate | ].
    destruct (exc_map _ l) as [ex | rest]; simpl in E; [ discriminate | ].
    injection E as <-. simpl. rewrite length_app.
    destruct (IH rest eq_refl) as [Hlen Hall]. split.
    + rewrite Hlen. f_equal.
      rewrite (exc_map_length _ _ _ Ea).
      unfold account_transactions. apply length_firstn.
    + apply Forall_app. split; [ | exact Hall ].
      apply (exc_map_Forall _ _ _ _ (training_row_shape a) Ea).
Qed.

Lemma exc_map_raises {A B} (f : A -> PyExc + B) (l : list A) :
  (exists e, exc_map f l = inl e) <-> exists a, In a l /\ exists e, f a = inl e.
Proof.
  induction l as [ | a l IH]; simpl.
  - split; [ intros (e & E); discriminate | intros (a & [] & _) ].
  - destruct (f a) as [ex | b] eqn:Ea; simpl.
    + split; [ intros _; exists a; eauto | eauto ].
    + destruct (exc_map f l) as [ex | bs]; simpl.
      * split; [ intros _ | eauto ].
        destruct (proj1 IH (ex_intro _ ex eq_refl)) as (a' & Hin & He).
        exists a'. auto.
      * split; [ intros (e & E); discriminate | ].
        intros (a' & [<- | Hin] & e & He); [ congruence | ].
        destruct (proj2 IH (ex_intro _ a' (conj Hin (ex_intro _ e He))))
          as (e' & E'). discriminate.
Qed.

(** Where [>] and [==] agree with each other, the only division that can
    fail in a training row is the one by the daily limit. *)
Lemma training_row_raises `{!OrderNum F} account (t : Transaction F) :
  (exists e, training_row account t = inl e)
  <-> py_eq (daily_limit account) zero = true.
Proof.
  unfold training_row, balance_ratio, py_truediv, py_gt.
  destruct (py_lt zero (balance account)) eqn:Hpos.
  - destruct (lt_not_eq _ _ Hpos) as [_ ->]. simpl.
    destruct (py_eq (daily_limit account) zero); simpl.
    + split; eauto.
    + split; [ intros (e & E); discriminate | discriminate ].
  - simpl. destruct (py_eq (daily_limit account) zero); simpl.
    + split; eauto.
    + split; [ intros (e & E); discriminate | discriminate ].
Qed.

Lemma firstn_nonempty {A} (n : nat) (l : list A) :
  firstn (S n) l <> [] <-> l <> [].
Proof. destruct l; simpl; split; congruence. Qed.

Lemma historical_data_raises `{!OrderNum F} (d : DB F) :
  (exists e, historical_data d = inl e) <-> zero_limit_sender d.
Proof.
  unfold historical_data, zero_limit_sender.
  set (rows_of := fun account =>
         exc_map (training_row account) (account_transactions account d)).
  assert (Hmap : (exists e, exc_map rows_of (accounts d) = inl e)
                 <-> exists a, In a (accounts d)
                               /\ py_eq (daily_limit a) zero = true
                               /\ outgoing a d <> []).
  { rewrite exc_map_raises. split.
    - intros (a & Hin & Hrow). exists a. split; [ exact Hin | ].
      apply exc_map_raises in Hrow. destruct Hrow as (t & Ht & He).
      split; [ now apply (training_row_raises a t) | ].
      unfold account_transactions in Ht. fold (outgoing a d) in Ht.
      intros Hnil. rewrite Hnil in Ht. destruct Ht.
    - intros (a & Hin & Hzero & Hout). exists a. split; [ exact Hin | ].
      apply exc_map_raises.
      unfold account_transactions. fold (outgoing a d).
      destruct (outgoing a d) as [ | t rest]; [ congruence | ].
      exists t. split; [ now left | ].
      now apply (training_row_raises a t). }
  rewrite <- Hmap.
  destruct (exc_map rows_of (accounts d)) as [e | per_account]; simpl.
  - split; eauto.
  - split; intros (e & E); discriminate.
Qed.

(** X10: one account with a daily limit of zero and a transfer to its name
    switches the scorer off for everybody.  The training rows raise
    exactly when there is such an account; the fresh detector then stays
    untrained, and every transfer that rules 1 and 2 let pass is
    approved. *)
Theorem zero_limit_disables_scorer `{!OrderNum F} (d : DB F) :
  ((exists e, historical_data d = inl e) <-> zero_limit_sender d)
  /\ (zero_limit_sender d ->
      forall amt account now g,
        py_gt amt (daily_limit account) = false ->
        (3 <=? large_in_last_hour account now (transactions d)) = false ->
        check_fraud_ml' amt account d now (new_detector, g)
        = ((false, Approved), (new_detector, g))).
Proof.
  split; [ apply historical_data_raises | ].
  intros Hzero amt account now g Hr1 Hr2.
  pose proof (proj2 (historical_data_raises d) Hzero) as Hraise.
  assert (Hne : accounts d <> []).
  { destruct Hzero as (a & Hin & _). intros E. rewrite E in Hin. destruct Hin. }
  destruct Hraise as (e & Hraise).
  unfold check_fraud_ml. rewrite Hr1, recent_large_count, Hr2.
  unfold predict, train_on_historical_data. simpl.
  destruct (accounts d) as [ | a l]; [ congruence | ].
  rewrite Hraise. reflexivity.
Qed.

End TrainingMore.

(* ================================================================== *)
(** ** The reading endpoints *)

Section SortingFacts.

Context {A : Type}.
Variable key : A -> Z.

Let falling (a b : A) : Prop := key b <= key a.

Lemma insert_desc_perm x l : Permutation (insert_desc key x l) (x :: l).
Proof.
  induction l as [ | y l IH]; simpl; [ reflexivity | ].
  destruct (key y <=? key x); [ reflexivity | ].
  rewrite IH. apply perm_swap.
Qed.

Lemma order_by_desc_perm l : Permutation (order_by_desc key l) l.
Proof.
  induction l as [ | x l IH]; simpl; [ reflexivity | ].
  rewrite insert_desc_perm. now constructor.
Qed.

Lemma insert_desc_sorted x l :
  StronglySorted falling l -> StronglySorted falling (insert_desc key x l).
Proof.
  induction l as [ | y l IH]; simpl; intros Hs.
  - repeat constructor.
  - inversion Hs as [ | ? ? Hl Hy]; subst.
    destruct (key y <=? key x) eqn:E.
    + apply Z.leb_le in E. constructor; [ exact Hs | ].
      constructor; [ exact E | ].
      eapply Forall_impl; [ | exact Hy ]. unfold falling. intros; lia.
    + apply Z.leb_gt in E. constructor; [ auto | ].
      apply Forall_forall. intros z Hz.
      apply (Permutation_in _ (insert_desc_perm x l)) in Hz.
      destruct Hz as [<- | Hz]; [ unfold falling; lia | ].
      rewrite Forall_forall in Hy. now apply Hy.
Qed.

Lemma order_by_desc_sorted l : StronglySorted falling (order_by_desc key l).
Proof.
  induction l as [ | x l IH]; simpl; [ constructor | ].
  now apply insert_desc_sorted.
Qed.

Lemma order_by_desc_In l x : In x (order_by_desc key l) <-> In x l.
Proof.
  split; apply Permutation_in;
    [ | symmetry ]; apply order_by_desc_perm.
Qed.

Lemma sorted_app l1 l2 :
  StronglySorted falling (l1 ++ l2) ->
  StronglySorted falling l1
  /\ forall a b, In a l1 -> In b l2 -> key b <= key a.
Proof.
  induction l1 as [ | x l1 IH]; simpl; intros Hs.
  - split; [ constructor | contradiction ].
  - inversion Hs as [ | ? ? Hl Hx]; subst.
    destruct (IH Hl) as [Hs1 Hcross].
    apply Forall_app in Hx. destruct Hx as [Hx1 Hx2]. split.
    + now constructor.
    + intros a b [<- | Ha] Hb; [ | now apply Hcross ].
      rewrite Forall_forall in Hx2. now apply Hx2.
Qed.

(** The first [n] rows of a listing by falling key: sorted, and no row
    left out has a larger key than a row taken. *)
Lemma limit_of_order_by n l :
  let page := firstn n (order_by_desc key l) in
  StronglySorted falling page
  /\ (forall a, In a page -> In a l)
  /\ (forall a b, In a page -> In b l -> ~ In b page -> key b <= key a).
Proof.
  intros page.
  pose proof (order_by_desc_sorted l) as Hs.
  rewrite <- (firstn_skipn n (order_by_desc key l)) in Hs.
  destruct (sorted_app _ _ Hs) as [Hpage Hcross].
  split; [ exact Hpage | ]. split.
  - intros a Ha. apply (order_by_desc_In l).
    rewrite <- (firstn_skipn n (order_by_desc key l)).
    apply in_or_app. now left.
  - intros a b Ha Hb Hout. apply Hcross; [ exact Ha | ].
    apply (order_by_desc_In l) in Hb.
    rewrite <- (firstn_skipn n (order_by_desc key l)) in Hb.
    apply in_app_or in Hb. destruct Hb; [ contradiction | assumption ].
Qed.

End SortingFacts.

Section ReadingFacts.

Context {F : Type} `{PyNum F}.

Lemma query_own_account_row number u (d : DB F) a :
  query_own_account number u d = Some a ->
  In a (accounts d) /\ account_number a = number /\ acc_user_id a = user_id u.
Proof.
  intros E. apply first_filter in E. destruct E as [Hin Hp].
  apply andb_true_iff in Hp. destruct Hp as [Hn Hu].
  apply String.eqb_eq in Hn. apply Z.eqb_eq in Hu. auto.
Qed.

Lemma query_own_account_none number u (d : DB F) :
  (forall a, In a (accounts d) -> account_number a = number ->
             acc_user_id a <> user_id u) ->
  query_own_account number u d = None.
Proof.
  intros Hall. apply first_filter_none. intros a Hin.
  destruct (String.eqb (account_number a) number) eqn:En; [ | reflexivity ].
  apply String.eqb_eq in En. simpl. apply Z.eqb_neq. now apply Hall.
Qed.

Lemma first_filter_found {A} (p : A -> bool) (l : list A) (a : A) :
  In a l -> p a = true -> first (filter p l) <> None.
Proof.
  induction l as [ | b l IH]; simpl; [ contradiction | ].
  intros [-> | Hin] Hp.
  - rewrite Hp. discriminate.
  - destruct (p b); [ discriminate | auto ].
Qed.

Lemma query_own_account_some number u (d : DB F) a :
  unique_numbers d -> In a (accounts d) ->
  account_number a = number -> acc_user_id a = user_id u ->
  query_own_account number u d = Some a.
Proof.
  intros Hnd Hin Hnum Hown.
  destruct (query_own_account number u d) as [b | ] eqn:E.
  - destruct (query_own_account_row _ _ _ _ E) as (Hinb & Hnumb & _).
    f_equal. apply (same_number_same_row d); congruence.
  - exfalso. revert E. apply (first_filter_found _ _ a Hin).
    now rewrite Hnum, String.eqb_refl, Hown, Z.eqb_refl.
Qed.

(** X11: [transaction_history] answers with at most 50 transactions, all
    of them of the table and with the account as source or destination,
    the latest first; no transaction of the account that it leaves out is
    later than one it shows.  The account is looked up by number and
    owner only, so the history of a deactivated account is served too. *)
Theorem transaction_history_page number u (d : DB F) rows :
  transaction_history number u d = inr rows ->
  exists account,
    In account (accounts d)
    /\ account_number account = number
    /\ acc_user_id account = user_id u
    /\ (List.length rows <= 50)%nat
    /\ (forall t, In t rows ->
                  In t (transactions d) /\ involves (acc_id account) t = true)
    /\ StronglySorted (fun t1 t2 => timestamp t2 <= timestamp t1) rows
    /\ (forall t t', In t rows -> In t' (transactions d) ->
                     involves (acc_id account) t' = true ->
                     ~ In t' rows -> timestamp t' <= timestamp t).
Proof.
  unfold transaction_history.
  destruct (query_own_account number u d) as [account | ] eqn:Eq;
    [ | discriminate ].
  intros Hrows.
  assert (Hpage : rows = firstn 50 (order_by_desc timestamp
                    (filter (involves (acc_id account)) (transactions d))))
    by congruence.
  clear Hrows. subst rows. exists account.
  destruct (query_own_account_row _ _ _ _ Eq) as (Hin & Hnum & Hown).
  destruct (limit_of_order_by timestamp 50
              (filter (involves (acc_id account)) (transactions d)))
    as (Hsorted & Hsub & Hlate).
  split; [ exact Hin | ]. split; [ exact Hnum | ]. split; [ exact Hown | ].
  split; [ apply firstn_le_length | ].
  split; [ | split; [ exact Hsorted | ] ].
  - intros t Ht. apply Hsub in Ht. now apply filter_In in Ht.
  - intros t t' Ht Ht' Hinv Hout. apply Hlate; auto.
    apply filter_In. auto.
Qed.

(** X12: the account endpoints serve a user their own accounts and no
    others.  [list_accounts] lists exactly the rows the user owns;
    [get_account] and [transaction_history] answer 404 "Account not
    found" for a number that does not exist or belongs to somebody else,
    and [get_account] hands out the user's own account, active or not. *)
Theorem own_accounts_only u (d : DB F) :
  (forall a, In a (list_accounts u d)
             <-> In a (accounts d) /\ acc_user_id a = user_id u)
  /\ (forall number,
        (forall a, In a (accounts d) -> account_number a = number ->
                   acc_user_id a <> user_id u) ->
        get_account number u d = inl account_error
        /\ transaction_history number u d = inl account_error)
  /\ (forall number a,
        get_account number u d = inr a ->
        In a (accounts d) /\ account_number a = number
        /\ acc_user_id a = user_id u)
  /\ (unique_numbers d ->
      forall a, In a (accounts d) -> acc_user_id a = user_id u ->
                get_account (account_number a) u d = inr a).
Proof.
  split; [ | split; [ | split ] ].
  - intros a. unfold list_accounts. rewrite filter_In, Z.eqb_eq. reflexivity.
  - intros number Hall. unfold get_account, transaction_history.
    now rewrite query_own_account_none.
  - intros number a. unfold get_account.
    destruct (query_own_account number u d) as [b | ] eqn:E; [ | discriminate ].
    intros [= <-]. exact (query_own_account_row _ _ _ _ E).
  - intros Hnd a Hin Hown. unfold get_account.
    now rewrite (query_own_account_some (account_number a) u d a).
Qed.

(** X13: [flagged_transactions] is for administrators: every other role
    gets 403 "Admin access required".  An administrator gets all flagged
    transactions of the table and no others, the latest first, without a
    limit. *)
Theorem flagged_listing u (d : DB F) :
  (role u <> ADMIN -> flagged_transactions u d = inl admin_error)
  /\ (role u = ADMIN ->
      exists rows,
        flagged_transactions u d = inr rows
        /\ (forall t, In t rows <-> In t (transactions d) /\ is_flagged t = true)
        /\ StronglySorted (fun t1 t2 => timestamp t2 <= timestamp t1) rows
        /\ List.length rows
           = List.length (filter is_flagged (transactions d))).
Proof.
  unfold flagged_transactions, get_current_admin. split.
  - destruct (role u); congruence.
  - intros ->. eexists. split; [ reflexivity | ]. split; [ | split ].
    + intros t. rewrite order_by_desc_In. apply filter_In.
    + apply order_by_desc_sorted.
    + apply Permutation_length, order_by_desc_perm.
Qed.

(** X14: flag and record, seen from the administrator's side.  After a
    completed transfer the listing of flagged transactions shows the new
    transaction if and only if [check_fraud] flagged it, and shows what it
    showed before otherwise. *)
Theorem flagged_transfer_is_listed req u clk (s s' : Session F) tx admin
        from_acc :
  transfer req u clk s = (inr tx, s') ->
  query_source req u (pending s) = Some from_acc ->
  role admin = ADMIN ->
  let v := check_fraud (req_amount req) from_acc (pending s) (t_fraud clk) in
  exists rows,
    flagged_transactions admin (pending s') = inr rows
    /\ (In tx rows <-> fst v = true)
    /\ (fst v = false ->
        flagged_transactions admin (pending s) = inr rows).
Proof.
  intros Ht Hs Hadmin v.
  destruct (transfer_with_inr _ _ _ _ _ _ _ Ht) as (f & t & Hacc).
  pose proof Hacc as (Hs' & _).
  assert (f = from_acc) by congruence. subst f. unfold transfer in Ht.
  rewrite (transfer_with_accepted _ _ _ _ _ _ _ Hacc) in Ht.
  injection Ht as <- <-.
  unfold flagged_transactions, get_current_admin. rewrite Hadmin.
  eexists. split; [ reflexivity | ]. simpl. rewrite filter_app. simpl.
  subst v.
  destruct (check_fraud (req_amount req) from_acc (pending s) (t_fraud clk))
    as [[ | ] reason]; simpl.
  - split; [ | discriminate ]. split; [ reflexivity | ]. intros _.
    apply order_by_desc_In. apply in_or_app. right. now left.
  - split; [ | intros _; now rewrite app_nil_r ].
    rewrite app_nil_r, order_by_desc_In, filter_In. simpl.
    split; [ intros [_ E]; exact E | discriminate ].
Qed.

End ReadingFacts.

(* ================================================================== *)
(** ** The additional properties at concrete rows *)

Example toy_training :
  snd (predict nat toy_fit toy_predict toy_score nat toy_uniform toy_randint
               2000%float (mk_account 1 "4000000001" 1 10000 100000 true)
               (two_accounts 10000 1000 100000) noon (new_detector, O))
  = toy_trained.
Proof. reflexivity. Qed.

(** User 2 sends 500 from B to the deactivated A. *)
Lemma destination_resolution_witness :
  transfer (send "4000000002" "4000000001" 500) user2 at_noon
           (open_session one_closed)
  = (inl destination_error, open_session one_closed).
Proof.
  apply (destination_resolution _ _ _ _
           (mk_account 2 "4000000002" 2 1000 100000 true)).
  - repeat constructor; simpl; intuition discriminate.
  - reflexivity.
  - reflexivity.
  - right. exists (mk_account 1 "4000000001" 1 10000 100000 false).
    simpl. auto.
Defined.

(** A holds 100 and asks for 5000: the 400, and the session as before. *)
Lemma transfer_raises_before_writing_witness :
  snd (transfer (send "4000000001" "4000000002" 5000) user1 at_noon
                (open_session (two_accounts 100 1000 100000)))
  = open_session (two_accounts 100 1000 100000)
  /\ (funds_error = source_error \/ funds_error = destination_error
      \/ funds_error = funds_error).
Proof.
  exact (transfer_raises_before_writing
           (send "4000000001" "4000000002" 5000) user1 at_noon
           (open_session (two_accounts 100 1000 100000))
           (snd (transfer (send "4000000001" "4000000002" 5000) user1 at_noon
                          (open_session (two_accounts 100 1000 100000))))
           funds_error eq_refl).
Defined.

(** A sends 2000 to B: flags, limits and keys of both rows stay. *)
Lemma transfer_frame_witness :
  map is_active
      (accounts (pending (snd (transfer (send "4000000001" "4000000002" 2000)
                                        user1 at_noon
                                        (open_session (two_accounts 10000 1000 100000))))))
  = [true; true].
Proof.
  eassert (Ht : transfer (send "4000000001" "4000000002" 2000) user1 at_noon
                         (open_session (two_accounts 10000 1000 100000))
                = (inr _, _)) by (lazy; reflexivity).
  destruct (transfer_frame _ _ _ _ _ _
              (mk_account 1 "4000000001" 1 10000 100000 true)
              (mk_account 2 "4000000002" 2 1000 100000 true)
              Ht eq_refl eq_refl) as (_ & _ & _ & Hact & _).
  rewrite Ht. exact Hact.
Defined.

(** A sends 2000 to B: the record says 8000 are left. *)
Lemma transfer_record_fields_witness :
  exists tx s',
    transfer (send "4000000001" "4000000002" 2000) user1 at_noon
             (open_session (two_accounts 10000 1000 100000)) = (inr tx, s')
    /\ balance_after tx = Some 8000%float
    /\ balance_of 1 (pending s') = Some 8000%float.
Proof.
  eassert (Ht : transfer (send "4000000001" "4000000002" 2000) user1 at_noon
                         (open_session (two_accounts 10000 1000 100000))
                = (inr _, _)) by (lazy; reflexivity).
  assert (Hnd : unique_ids (pending (open_session (two_accounts 10000 1000 100000)))).
  { repeat constructor; simpl; intuition discriminate. }
  destruct (transfer_record_fields _ _ _ _ _ _
              (mk_account 1 "4000000001" 1 10000 100000 true)
              (mk_account 2 "4000000002" 2 1000 100000 true)
              Hnd Ht eq_refl eq_refl ltac:(discriminate))
    as (_ & _ & _ & _ & Hafter & Hsame & _).
  eexists. eexists. split; [ exact Ht | ]. split; [ exact Hafter | ].
  exact (eq_trans (eq_sym Hsame) Hafter).
Defined.

(** A's fifth transfer of 15000 brings its count from 4 to 5. *)
Lemma transfer_feeds_rule_two_witness :
  large_in_last_hour (mk_account 1 "4000000001" 1 140000 100000 true) (noon + 60)
    (transactions
       (pending (snd (transfer (send "4000000001" "4000000002" 15000)
                               user1 at_noon (open_session busy_hour)))))
  = 5.
Proof.
  eassert (Ht : transfer (send "4000000001" "4000000002" 15000) user1 at_noon
                         (open_session busy_hour)
                = (inr _, _)) by (lazy; reflexivity).
  exact (transfer_feeds_rule_two _ _ _ _ _ _
           (mk_account 1 "4000000001" 1 140000 100000 true)
           (mk_account 1 "4000000001" 1 140000 100000 true) (noon + 60)
           Ht eq_refl).
Defined.

(** 60000 out of 70000: flagged by [check_fraud], approved by
    [check_fraud_ml] with a forest that finds it normal. *)
Lemma wrapper_drops_rule_three_witness :
  check_fraud 60000%float (mk_account 1 "4000000001" 1 70000 100000 true)
              (two_accounts 70000 0 100000) noon
  = (true, LargeWithdrawal)
  /\ check_fraud_ml nat toy_fit toy_predict toy_score nat toy_uniform toy_randint
                    60000%float (mk_account 1 "4000000001" 1 70000 100000 true)
                    (two_accounts 70000 0 100000) noon toy_trained
     = ((false, Approved), toy_trained).
Proof.
  eassert (Hp : predict nat toy_fit toy_predict toy_score nat toy_uniform
                        toy_randint 60000%float
                        (mk_account 1 "4000000001" 1 70000 100000 true)
                        (two_accounts 70000 0 100000) noon toy_trained
                = (inr (false, _, _), _)) by (lazy; reflexivity).
  exact (wrapper_drops_rule_three nat nat toy_fit toy_predict toy_score
           toy_uniform toy_randint 60000%float
           (mk_account 1 "4000000001" 1 70000 100000 true)
           (two_accounts 70000 0 100000) noon toy_trained _ _ _
           eq_refl eq_refl eq_refl Hp).
Defined.

(** The four transfers of [busy_hour] give four training rows. *)
Lemma historical_data_size_witness :
  exists rows, historical_data busy_hour = inr rows /\ List.length rows = 4%nat.
Proof.
  eassert (Hr : historical_data busy_hour = inr _) by (lazy; reflexivity).
  eexists. split; [ exact Hr | ].
  exact (proj1 (historical_data_size busy_hour _ Hr)).
Defined.

(** User 1 reads the history of A in [busy_hour_flagged]: five rows. *)
Lemma transaction_history_page_witness :
  exists rows,
    transaction_history "4000000001" user1 busy_hour_flagged = inr rows
    /\ (List.length rows <= 50)%nat.
Proof.
  eassert (Hr : transaction_history "4000000001" user1 busy_hour_flagged
                = inr _) by (lazy; reflexivity).
  destruct (transaction_history_page _ _ _ _ Hr) as (a & _ & _ & _ & Hlen & _).
  eexists. split; [ exact Hr | exact Hlen ].
Defined.

(** The transfer of 150000 over a limit of 100000 is listed. *)
Lemma flagged_transfer_is_listed_witness :
  exists tx s' rows,
    transfer (send "4000000001" "4000000002" 150000) user1 at_noon
             (open_session (two_accounts 200000 1000 100000)) = (inr tx, s')
    /\ flagged_transactions admin1 (pending s') = inr rows
    /\ In tx rows.
Proof.
  eassert (Ht : transfer (send "4000000001" "4000000002" 150000) user1 at_noon
                         (open_session (two_accounts 200000 1000 100000))
                = (inr _, _)) by (lazy; reflexivity).
  destruct (flagged_transfer_is_listed _ _ _ _ _ _ admin1
              (mk_account 1 "4000000001" 1 200000 100000 true)
              Ht eq_refl eq_refl) as (rows & Hl & Hin & _).
  eexists. eexists. exists rows. split; [ exact Ht | ].
  split; [ exact Hl | ]. apply Hin. reflexivity.
Defined.

(** B's daily limit of 0 and its one transfer keep the detector
    untrained: A's transfer of 2000 is approved unseen. *)
Lemma zero_limit_disables_scorer_witness :
  zero_limit_sender zero_limit
  /\ check_fraud_ml nat toy_fit toy_predict toy_score nat toy_uniform toy_randint
                    2000%float (mk_account 1 "4000000001" 1 10000 100000 true)
                    zero_limit noon (new_detector, O)
     = ((false, Approved), (new_detector, O)).
Proof.
  assert (Hz : zero_limit_sender zero_limit).
  { exists (mk_account 2 "4000000002" 2 1000 0 true).
    split; [ right; left; reflexivity | ].
    split; [ reflexivity | discriminate ]. }
  split; [ exact Hz | ].
  exact (proj2 (zero_limit_disables_scorer
                  (OrderNum0 := float_order)
                  nat nat toy_fit toy_predict toy_score toy_uniform toy_randint
                  zero_limit)
               Hz 2000%float (mk_account 1 "4000000001" 1 10000 100000 true)
               noon O eq_refl eq_refl).
Defined.
